(** * SystemMPI easyblock: shallow embedding and verified properties

    Source: easybuild/easyblocks/generic/systemmpi.py

    Python byte strings are Rocq [string]s, [os.environ] and the other
    dictionaries are [gmap]s keyed by strings, exceptions are values of
    [exn], and a method that mutates [self] is a function from the object
    to an outcome paired with the object as the method left it. *)

From Stdlib Require Import Ascii String Bool Arith Lia.
From stdpp Require Import base option gmap strings fin_maps sorting.

Local Open Scope string_scope.

(** ** Python string operations used by the easyblock *)
Module PyStr.

Definition newline : ascii := "010"%char.
Definition slash : ascii := "/"%char.
Definition blank : ascii := " "%char.

(** [str.lower()] on a byte string (C locale): only [A-Z] change. *)
Definition lower_ascii (c : ascii) : ascii :=
  let n := nat_of_ascii c in
  if ((65 <=? n) && (n <=? 90))%nat then ascii_of_nat (n + 32) else c.

Fixpoint lower (s : string) : string :=
  match s with
  | EmptyString => EmptyString
  | String c s' => String (lower_ascii c) (lower s')
  end.

(** [s.startswith(p)] *)
Fixpoint startswith (p s : string) : bool :=
  match p, s with
  | EmptyString, _ => true
  | String a p', String b s' => Ascii.eqb a b && startswith p' s'
  | String _ _, EmptyString => false
  end.

(** [s.endswith(p)]: some suffix of [s] is [p]. *)
Fixpoint endswith (p s : string) : bool :=
  String.eqb p s ||
  match s with
  | EmptyString => false
  | String _ s' => endswith p s'
  end.

(** [c in s] for a single character *)
Fixpoint has_char (c : ascii) (s : string) : bool :=
  match s with
  | EmptyString => false
  | String b s' => Ascii.eqb c b || has_char c s'
  end.

(** [p in s] *)
Fixpoint contains (p s : string) : bool :=
  startswith p s ||
  match s with
  | EmptyString => false
  | String _ s' => contains p s'
  end.

(** [s[len(p):]] when [s] starts with [p] *)
Fixpoint strip_prefix (p s : string) : option string :=
  match p, s with
  | EmptyString, _ => Some s
  | String a p', String b s' =>
      if Ascii.eqb a b then strip_prefix p' s' else None
  | String _ _, EmptyString => None
  end.

(** [s.split(' ', 1)[0]]: the text before the first blank. *)
Fixpoint split_first_blank (s : string) : string :=
  match s with
  | EmptyString => EmptyString
  | String c s' =>
      if Ascii.eqb c blank then EmptyString
      else String c (split_first_blank s')
  end.

(** Helpers of [posixpath.dirname], working on the reversed path. *)
Fixpoint drop_to_slash (r : string) : string :=
  match r with
  | EmptyString => EmptyString
  | String c r' => if Ascii.eqb c slash then r else drop_to_slash r'
  end.

Fixpoint all_slashes (r : string) : bool :=
  match r with
  | EmptyString => true
  | String c r' => Ascii.eqb c slash && all_slashes r'
  end.

Fixpoint drop_slashes (r : string) : string :=
  match r with
  | EmptyString => EmptyString
  | String c r' => if Ascii.eqb c slash then drop_slashes r' else r
  end.

(** [os.path.dirname(p)] (posixpath):
    [i = p.rfind('/') + 1; head = p[:i];
     if head and head != '/'*len(head): head = head.rstrip('/')]. *)
Definition dirname (p : string) : string :=
  let head_rev := drop_to_slash (String.rev p) in
  if all_slashes head_rev then String.rev head_rev
  else String.rev (drop_slashes head_rev).

End PyStr.

(** ** The two regular expressions of the easyblock

    Both are searched with [re.search], that is, at the leftmost start
    position that admits a match, with greedy quantifiers that give
    characters back only when the rest of the pattern fails. *)
Module Regex.
Import PyStr.

(** [\s] for a byte pattern: blank, \t, \n, \v, \f, \r. *)
Definition is_space (c : ascii) : bool :=
  let n := nat_of_ascii c in
  ((n =? 32) || ((9 <=? n) && (n <=? 13)))%nat.

Fixpoint all_spaces (s : string) : bool :=
  match s with
  | EmptyString => true
  | String c s' => is_space c && all_spaces s'
  end.

(** The group [.*] closed by [$] under [re.M]: [.] refuses only the
    newline and [$] holds at the end of the text and before a newline, so
    the group is the rest of the current line. *)
Fixpoint line_rest (s : string) : string :=
  match s with
  | EmptyString => EmptyString
  | String c s' =>
      if Ascii.eqb c newline then EmptyString else String c (line_rest s')
  end.

(** [\s+] followed by the literal [lit]: the longest run of white space
    is tried first, shorter ones after it; the result is the text that
    follows the literal. *)
Fixpoint spaces_then (lit s : string) : option string :=
  match s with
  | EmptyString => None
  | String c s' =>
      if is_space c then
        match spaces_then lit s' with
        | Some r => Some r
        | None => strip_prefix lit s'
        end
      else None
  end.

(** [re.search] for [^], [\s+], the literal [lit], a group [.*] and
    [$], compiled with [re.M]; the result is group 1.  [bol] tells
    whether the current position is at the beginning of a line (where
    [^] holds). *)
Fixpoint search_setting (lit : string) (bol : bool) (s : string)
  : option string :=
  match (if bol then spaces_then lit s else None) with
  | Some r => Some (line_rest r)
  | None =>
      match s with
      | EmptyString => None
      | String c s' => search_setting lit (Ascii.eqb c newline) s'
      end
  end.

(** A group [.*] before the lookahead [(?=la)]: the group ends at the
    last place of the current line where the lookahead text follows. *)
Fixpoint greedy_until (la s : string) : option string :=
  match s with
  | EmptyString => if startswith la s then Some EmptyString else None
  | String c s' =>
      if Ascii.eqb c newline then
        if startswith la s then Some EmptyString else None
      else
        match greedy_until la s' with
        | Some g => Some (String c g)
        | None => if startswith la s then Some EmptyString else None
        end
  end.

(** [re.search] for the lookbehind [(?<=lb)], a group [.*] and the
    lookahead [(?=la)]; the result is group 1, for start positions from
    the current one on.  [before_rev] is the text already passed,
    reversed, which the lookbehind inspects. *)
Fixpoint search_between (lb_rev la : string) (before_rev s : string)
  : option string :=
  match (if startswith lb_rev before_rev then greedy_until la s else None) with
  | Some g => Some g
  | None =>
      match s with
      | EmptyString => None
      | String c s' => search_between lb_rev la (String c before_rev) s'
      end
  end.

End Regex.

(** ** The easyblock *)
Module SystemMPI.
Import PyStr Regex.

(** *** Exceptions and outcomes *)

Inductive exn : Type :=
| EasyBuildError (msg : string)
| AttributeError (msg : string)
| IndexError (msg : string).

Inductive result (A : Type) : Type :=
| Ok (a : A)
| Raise (e : exn).
Arguments Ok {A} a.
Arguments Raise {A} e.

(** Sequencing: an exception ends the computation. *)
#[export] Instance result_ret : MRet result := fun A a => Ok a.
#[export] Instance result_bind : MBind result := fun A B k r =>
  match r with
  | Ok a => k a
  | Raise e => Raise e
  end.

(** *** Data *)

(** The parts of the easyconfig ([self.cfg]) that the easyblock reads
    or writes. *)
Record EasyConfig : Type := {
  name : string;
  version : string;
  full_mod_name : string;
  short_mod_name : string;
  mod_subdir : string
}.

Record Toolchain : Type := {
  COMPILER_CC : string;
  COMPILER_MODULE_NAME : list string
}.

(** What [Bundle.__init__] leaves in [self]. *)
Record Bundle : Type := {
  cfg : EasyConfig;
  installdir : string;
  toolchain : Toolchain
}.

(** [self] after [SystemMPI.__init__]. *)
Record Self : Type := {
  bundle :> Bundle;
  mpi_version : string;
  mpi_prefix : string;
  mpi_envvars : gmap string string;
  mpi_c_compiler : string;
  c_compiler_version : string;
  orig_version : string;
  orig_installdir : string
}.

(** The collaborators and the ambient state that the easyblock reads:
    [which], [os.path.realpath], [run_cmd] (its output), [read_file],
    [os.environ], [os.path.exists], [extract_compiler_version],
    [get_software_version] ([None] is Python's [None]) and the three
    methods of the active module naming scheme. *)
Record World : Type := {
  which : string -> option string;
  realpath : string -> string;
  run_cmd : string -> result string;
  read_file : string -> result string;
  environ : gmap string string;
  path_exists : string -> bool;
  extract_compiler_version : string -> result string;
  get_software_version : string -> option string;
  det_full_module_name : EasyConfig -> string;
  det_short_module_name : EasyConfig -> string;
  det_module_subdir : EasyConfig -> string
}.

(** [self.cfg['version'] = v] and [self.installdir = d] *)
Definition set_cfg_version (v : string) (c : EasyConfig) : EasyConfig :=
  {| name := name c; version := v; full_mod_name := full_mod_name c;
     short_mod_name := short_mod_name c; mod_subdir := mod_subdir c |}.

Definition b_set_version (v : string) (b : Bundle) : Bundle :=
  {| cfg := set_cfg_version v (cfg b); installdir := installdir b;
     toolchain := toolchain b |}.

Definition b_set_installdir (d : string) (b : Bundle) : Bundle :=
  {| cfg := cfg b; installdir := d; toolchain := toolchain b |}.

Definition with_bundle (b : Bundle) (self : Self) : Self :=
  {| bundle := b; mpi_version := mpi_version self;
     mpi_prefix := mpi_prefix self; mpi_envvars := mpi_envvars self;
     mpi_c_compiler := mpi_c_compiler self;
     c_compiler_version := c_compiler_version self;
     orig_version := orig_version self;
     orig_installdir := orig_installdir self |}.

Definition set_version (v : string) (self : Self) : Self :=
  with_bundle (b_set_version v self) self.

Definition set_installdir (d : string) (self : Self) : Self :=
  with_bundle (b_set_installdir d self) self.

(** [d.update(other)]: the entries of [other] win. *)
Definition update (d other : gmap string string) : gmap string string :=
  other ∪ d.

(** [dict((key, value) for key, value in d.iteritems() if p(key))] *)
Definition select (p : string -> bool) (d : gmap string string)
  : gmap string string :=
  filter (fun kv => p (fst kv) = true) d.

(** Truth value of a string and of [None]. *)
Definition truthy (o : option string) : bool :=
  match o with
  | Some s => negb (String.eqb s "")
  | None => false
  end.

(** ["%s" % v] for a string or [None]. *)
Definition py_str (o : option string) : string :=
  match o with
  | Some s => s
  | None => "None"
  end.

(** *** [extract_ompi_setting]

    [pattern] is taken literally, as it is at the three call sites
    ("Open MPI", "Prefix", "C compiler"). *)
Definition ompi_regex (pattern : string) : string :=
  "^\s+" +:+ pattern +:+ ": (.*)$".

(** The error of lines 63-64. *)
Definition extraction_failure (pattern txt : string) : exn :=
  EasyBuildError
    ("Failed to extract OpenMPI setting '" +:+ pattern +:+
     "' using regex pattern '" +:+ ompi_regex pattern +:+
     "' from: " +:+ txt).

Definition extract_ompi_setting (pattern txt : string) : result string :=
  match search_setting (pattern +:+ ": ") true txt with
  | Some setting => Ok setting
  | None => Raise (extraction_failure pattern txt)
  end.

(** *** [__init__] *)

(** Lines 75-78: the name of the compiler wrapper. *)
Definition mpi_c_wrapper_for (mpi_name : string) : string :=
  if String.eqb mpi_name "impi" then "mpiicc" else "mpicc".

(** Lines 79-85: the real path of the wrapper. *)
Definition find_wrapper (w : World) (mpi_c_wrapper : string) : result string :=
  match which w mpi_c_wrapper with
  | Some p =>
      if truthy (Some p) then Ok (realpath w p)
      else Raise (EasyBuildError (mpi_c_wrapper +:+ " not found in $PATH"))
  | None => Raise (EasyBuildError (mpi_c_wrapper +:+ " not found in $PATH"))
  end.

(** The four attributes that each branch of lines 88-136 assigns. *)
Record Detected : Type := {
  d_version : string;
  d_prefix : string;
  d_envvars : gmap string string;
  d_c_compiler : string
}.

(** Lines 89-101. *)
Definition detect_openmpi (w : World) : result Detected :=
  output_of_ompi_info ← run_cmd w "ompi_info";
  ver ← extract_ompi_setting "Open MPI" output_of_ompi_info;
  prefix ← extract_ompi_setting "Prefix" output_of_ompi_info;
  let envvars := select (startswith "OMPI_") (environ w) in
  cc ← extract_ompi_setting "C compiler" output_of_ompi_info;
  Ok {| d_version := ver; d_prefix := prefix; d_envvars := envvars;
        d_c_compiler := cc |}.

(** [prefix_regex.search(contents)] of line 107-108: [None] when there
    is no match, else the match object, of which only group 1 is used;
    that group takes part in every match, so it is never [None]. *)
Definition prefix_regex_search (contents : string) : option (option string) :=
  match search_between (String.rev "compilers_and_libraries_") "/linux/mpi"
          EmptyString contents with
  | Some g => Some (Some g)
  | None => None
  end.

(** [m.group(1)], where [m] may be [None]. *)
Definition group1 (m : option (option string)) : result (option string) :=
  match m with
  | Some g => Ok g
  | None => Raise (AttributeError "'NoneType' object has no attribute 'group'")
  end.

(** Lines 104-133. *)
Definition detect_impi (w : World) (mpi_c_wrapper path_to_mpi_c_wrapper : string)
  : result Detected :=
  contents_of_mpiicc ← read_file w path_to_mpi_c_wrapper;
  found ← group1 (prefix_regex_search contents_of_mpiicc);
  ver ← match found with
         | Some v => Ok v
         | None => Raise (EasyBuildError "No version found for system Intel MPI")
         end;
  let prefix :=
    if truthy (environ w !! "I_MPI_ROOT")
    then py_str (environ w !! "I_MPI_ROOT")
    else dirname (dirname (dirname path_to_mpi_c_wrapper)) in
  let envvars :=
    update
      (update (select (startswith "I_MPI_") (environ w))
              (select (startswith "MPICH_") (environ w)))
      (select (fun key => startswith "MPI" key && endswith "PROFILE" key)
              (environ w)) in
  compile_info ← run_cmd w (mpi_c_wrapper +:+ " -compile-info");
  Ok {| d_version := ver; d_prefix := prefix; d_envvars := envvars;
        d_c_compiler := split_first_blank compile_info |}.

(** Lines 88-136: the branch on the lowercased name. *)
Definition detect (w : World) (mpi_name mpi_c_wrapper path_to_mpi_c_wrapper : string)
  : result Detected :=
  if String.eqb mpi_name "openmpi" then detect_openmpi w
  else if String.eqb mpi_name "impi" then
    detect_impi w mpi_c_wrapper path_to_mpi_c_wrapper
  else Raise (EasyBuildError
                ("Unrecognised system MPI implementation " +:+ mpi_name)).

(** Lines 139-140. *)
Definition check_prefix (w : World) (mpi_name prefix : string) : result unit :=
  if path_exists w prefix then Ok tt
  else Raise (EasyBuildError
                ("Path derived for system MPI (" +:+ mpi_name +:+
                 ") does not exist: " +:+ prefix +:+ "!")).

(** Lines 150-158. *)
Definition check_version (requested derived : string) : result unit :=
  if String.eqb requested "system" then Ok tt
  else if String.eqb requested derived then Ok tt
  else Raise (EasyBuildError
                ("Specified version (" +:+ requested +:+
                 ") does not match version reported by MPI (" +:+
                 derived +:+ ")")).

(** Lines 161-164: each name is computed from the configuration as the
    previous assignment left it. *)
Definition fix_module_names (w : World) (c : EasyConfig) : EasyConfig :=
  let c1 := {| name := name c; version := version c;
               full_mod_name := det_full_module_name w c;
               short_mod_name := short_mod_name c;
               mod_subdir := mod_subdir c |} in
  let c2 := {| name := name c1; version := version c1;
               full_mod_name := full_mod_name c1;
               short_mod_name := det_short_module_name w c1;
               mod_subdir := mod_subdir c1 |} in
  {| name := name c2; version := version c2;
     full_mod_name := full_mod_name c2;
     short_mod_name := short_mod_name c2;
     mod_subdir := det_module_subdir w c2 |}.

(** [SystemMPI.__init__], after [Bundle.__init__] has produced [b]. *)
Definition __init__ (w : World) (b : Bundle) : result Self :=
  let mpi_name := lower (name (cfg b)) in
  let mpi_c_wrapper := mpi_c_wrapper_for mpi_name in
  path_to_mpi_c_wrapper ← find_wrapper w mpi_c_wrapper;
  d ← detect w mpi_name mpi_c_wrapper path_to_mpi_c_wrapper;
  _ ← check_prefix w mpi_name (d_prefix d);
  ccv ← extract_compiler_version w (d_c_compiler d);
  _ ← check_version (version (cfg b)) (d_version d);
  let c := fix_module_names w (cfg b) in
  Ok {| bundle := {| cfg := c; installdir := installdir b;
                     toolchain := toolchain b |};
        mpi_version := d_version d;
        mpi_prefix := d_prefix d;
        mpi_envvars := d_envvars d;
        mpi_c_compiler := d_c_compiler d;
        c_compiler_version := ccv;
        orig_version := version c;
        orig_installdir := installdir b |}.

(** *** Methods

    A method reads and writes [self]; what it has written stays written
    when it raises. *)
Definition method (A : Type) : Type := Self -> result A * Self.

#[export] Instance method_ret : MRet method := fun A a self => (Ok a, self).
#[export] Instance method_bind : MBind method := fun A B k m self =>
  match m self with
  | (Ok a, self') => k a self'
  | (Raise e, self') => (Raise e, self')
  end.

Definition read {A : Type} (f : Self -> A) : method A :=
  fun self => (Ok (f self), self).

Definition assign (f : Self -> Self) : method unit :=
  fun self => (Ok tt, f self).

Definition raise {A : Type} (e : exn) : method A :=
  fun self => (Raise e, self).

(** [a != b] for a string [a] and a string or [None] [b]. *)
Definition str_ne (a : string) (b : option string) : bool :=
  match b with
  | Some s => negb (String.eqb a s)
  | None => true
  end.

(** [make_installdir]: nothing is done. *)
Definition make_installdir : method unit := mret tt.

(** [make_module_req_guess] *)
Definition make_module_req_guess (self : Self) : gmap string (list string) :=
  if String.eqb (name (cfg self)) "impi" then
    let lib_dirs := ["lib/em64t"; "lib64"] in
    let include_dirs := ["include64"] in
    <["PATH" := ["bin/intel64"; "bin64"]]>
      (<["LD_LIBRARY_PATH" := lib_dirs]>
         (<["LIBRARY_PATH" := lib_dirs]>
            (<["CPATH" := include_dirs]>
               (<["MIC_LD_LIBRARY_PATH" := ["mic/lib"]]> ∅))))
  else ∅.

Section Methods.

Variable w : World.

(** The inherited methods that the overriding ones call through
    [super]. *)
Variable super_make_module_step : bool -> method string.
Variable super_make_module_extend_modpath : method string.

(** Lines 200-208 of [make_module_step]: the compiler name and
    version that the toolchain stands for. *)
Definition toolchain_compiler : method (string * option string) :=
  c_compiler_name ← read (fun self => COMPILER_CC (toolchain self));
  if String.eqb c_compiler_name "DUMMYCC" then
    compiler_version ← read c_compiler_version;
    mret ("gcc", Some compiler_version)
  else
    modules ← read (fun self => COMPILER_MODULE_NAME (toolchain self));
    match modules with
    | m :: _ => mret (c_compiler_name, get_software_version w m)
    | [] => raise (IndexError "list index out of range")
    end.

(** Line 211: the message of the mismatch. *)
Definition mismatch_message (c_compiler_name : string)
    (compiler_version : option string) (self : Self) : string :=
  "C compiler for toolchain (" +:+ c_compiler_name +:+ "/" +:+
  py_str compiler_version +:+ ") and underneath MPI (" +:+
  mpi_c_compiler self +:+ "/" +:+ c_compiler_version self +:+
  ") do not match!".

(** [make_module_step] *)
Definition make_module_step (fake : bool) : method string :=
  tc ← toolchain_compiler;
  self ← read id;
  if negb (String.eqb (mpi_c_compiler self) (fst tc))
     || str_ne (c_compiler_version self) (snd tc)
  then raise (EasyBuildError (mismatch_message (fst tc) (snd tc) self))
  else
    v ← read mpi_version;
    assign (set_version v);;
    p ← read mpi_prefix;
    assign (set_installdir p);;
    res ← super_make_module_step fake;
    d ← read orig_installdir;
    assign (set_installdir d);;
    v' ← read orig_version;
    assign (set_version v');;
    mret res.

(** [make_module_extend_modpath] *)
Definition make_module_extend_modpath : method string :=
  v ← read orig_version;
  assign (set_version v);;
  res ← super_make_module_extend_modpath;
  v' ← read mpi_version;
  assign (set_version v');;
  mret res.

End Methods.

(** *** [make_module_extra] *)

(** [a <= b] for two items of a dictionary of strings, which Python
    compares as tuples: by the keys, and by the values when the keys are
    equal. *)
Definition item_le (a b : string * string) : Prop :=
  String.le (fst a) (fst b) /\ (fst a = fst b -> String.le (snd a) (snd b)).

#[export] Instance item_le_dec : RelDecision item_le.
Proof. intros a b. unfold item_le. apply _. Defined.

(** [sorted(d.items())] *)
Definition sorted_items (d : gmap string string) : list (string * string) :=
  merge_sort item_le (map_to_list d).

Section ModuleExtra.

(** [self.module_generator.set_environment] and the inherited
    [make_module_extra]. *)
Variable set_environment : string -> string -> string.
Variable super_make_module_extra : method string.

(** The loop of lines 246-247, from the text [txt] on. *)
Definition add_statements (txt : string) (items : list (string * string))
  : string :=
  foldl (fun acc kv => acc +:+ set_environment (fst kv) (snd kv)) txt items.

Definition make_module_extra : method string :=
  txt ← super_make_module_extra;
  envvars ← read mpi_envvars;
  mret (add_statements txt (sorted_items envvars)).

End ModuleExtra.

End SystemMPI.

(** ** Concrete systems, used to run the easyblock *)
Module Demo.
Import PyStr SystemMPI.

Definition nl : string := String newline EmptyString.

Definition ompi_info_output : string :=
  "                 Package: Open MPI root@build Distribution" +:+ nl +:+
  "                Open MPI: 4.0.1" +:+ nl +:+
  "                  Prefix: /opt/ompi" +:+ nl +:+
  "              C compiler: gcc" +:+ nl.


Definition mpiicc_script : string :=
  "#!/bin/sh" +:+ nl +:+
  "prefix=/opt/intel/compilers_and_libraries_2017.1.132/linux/mpi" +:+ nl.

Definition mpiicc_path : string :=
  "/opt/intel/compilers_and_libraries_2017.1.132/linux/mpi/intel64/bin/mpiicc".

Definition env : gmap string string :=
  list_to_map
    [("HOME", "/root"); ("OMPI_MCA_btl", "self"); ("I_MPI_FABRICS", "shm");
     ("MPICH_CC", "gcc"); ("MPIO_PROFILE", "1"); ("PATH", "/usr/bin")].

Definition full_name (c : EasyConfig) : string := name c +:+ "/" +:+ version c.

(** A machine with OpenMPI 4.0.1 under /opt/ompi, built with gcc 9.3.0. *)
Definition ompi_world_with (info : string) : World :=
  {| which := fun c => if String.eqb c "mpicc" then Some "/usr/bin/mpicc" else None;
     realpath := fun p =>
       if String.eqb p "/usr/bin/mpicc" then "/opt/ompi/bin/mpicc" else p;
     run_cmd := fun c =>
       if String.eqb c "ompi_info" then Ok info
       else Raise (EasyBuildError ("cmd " +:+ c +:+ " failed"));
     read_file := fun p => Raise (EasyBuildError ("Failed to read " +:+ p));
     environ := env;
     path_exists := fun p => String.eqb p "/opt/ompi";
     extract_compiler_version := fun c =>
       if String.eqb c "gcc" then Ok "9.3.0"
       else Raise (EasyBuildError ("Failed to extract version of " +:+ c));
     get_software_version := fun m =>
       if String.eqb m "GCC" then Some "9.3.0" else None;
     det_full_module_name := full_name;
     det_short_module_name := full_name;
     det_module_subdir := fun _ => "mpi" |}.

Definition ompi_world : World := ompi_world_with ompi_info_output.

(** A machine with Intel MPI 2017.1.132, whose [mpiicc] script holds
    the text [script]. *)
Definition impi_world_with (script : string) : World :=
  {| which := fun c => if String.eqb c "mpiicc" then Some mpiicc_path else None;
     realpath := fun p => p;
     run_cmd := fun c =>
       if String.eqb c "mpiicc -compile-info" then Ok "icc -I/opt/intel/include"
       else Raise (EasyBuildError ("cmd " +:+ c +:+ " failed"));
     read_file := fun p =>
       if String.eqb p mpiicc_path then Ok script
       else Raise (EasyBuildError ("Failed to read " +:+ p));
     environ := env;
     path_exists := fun _ => true;
     extract_compiler_version := fun c =>
       if String.eqb c "icc" then Ok "17.0.1"
       else Raise (EasyBuildError ("Failed to extract version of " +:+ c));
     get_software_version := fun m =>
       if String.eqb m "icc" then Some "17.0.1" else None;
     det_full_module_name := full_name;
     det_short_module_name := full_name;
     det_module_subdir := fun _ => "mpi" |}.

Definition impi_world : World := impi_world_with mpiicc_script.

(** A machine without any MPI compiler wrapper in [$PATH]. *)
Definition bare_world : World :=
  {| which := fun _ => None;
     realpath := fun p => p;
     run_cmd := fun c => Raise (EasyBuildError ("cmd " +:+ c +:+ " failed"));
     read_file := fun p => Raise (EasyBuildError ("Failed to read " +:+ p));
     environ := ∅;
     path_exists := fun _ => false;
     extract_compiler_version := fun c =>
       Raise (EasyBuildError ("Failed to extract version of " +:+ c));
     get_software_version := fun _ => None;
     det_full_module_name := full_name;
     det_short_module_name := full_name;
     det_module_subdir := fun _ => "mpi" |}.

Definition dummy_toolchain : Toolchain :=
  {| COMPILER_CC := "DUMMYCC"; COMPILER_MODULE_NAME := [] |}.

Definition gcc_toolchain : Toolchain :=
  {| COMPILER_CC := "gcc"; COMPILER_MODULE_NAME := ["GCC"] |}.

Definition clang_toolchain : Toolchain :=
  {| COMPILER_CC := "clang"; COMPILER_MODULE_NAME := ["Clang"] |}.

(** The easyconfig [nm]-[ver] before [SystemMPI.__init__]. *)
Definition easyconfig (nm ver : string) (tc : Toolchain) : Bundle :=
  {| cfg := {| name := nm; version := ver; full_mod_name := nm +:+ "/" +:+ ver;
               short_mod_name := nm +:+ "/" +:+ ver; mod_subdir := "mpi" |};
     installdir := "/easybuild/software/" +:+ nm +:+ "/" +:+ ver;
     toolchain := tc |}.

(** The OpenMPI easyblock that [__init__] builds on [ompi_world] for
    version 'system'. *)
Definition ompi_self (tc : Toolchain) : Self :=
  {| bundle := easyconfig "OpenMPI" "system" tc;
     mpi_version := "4.0.1";
     mpi_prefix := "/opt/ompi";
     mpi_envvars := select (startswith "OMPI_") env;
     mpi_c_compiler := "gcc";
     c_compiler_version := "9.3.0";
     orig_version := "system";
     orig_installdir := "/easybuild/software/OpenMPI/system" |}.

(** What lines 88-101 detect on [ompi_world]. *)
Definition ompi_detected : Detected :=
  {| d_version := "4.0.1"; d_prefix := "/opt/ompi";
     d_envvars := select (startswith "OMPI_") env; d_c_compiler := "gcc" |}.

(** Inherited methods: one that writes the module and returns its
    path, one that fails. *)
Definition super_ok : method string :=
  fun self => (Ok ("modules/" +:+ full_name (cfg self)), self).

Definition super_fails : method string :=
  fun self => (Raise (EasyBuildError "Failed to write module file"), self).

(** The statement of a Tcl module file for one variable. *)
Definition setenv (key val : string) : string :=
  "setenv " +:+ key +:+ " " +:+ val +:+ nl.

(** A process environment with three Open MPI variables. *)
Definition ompi_env : gmap string string :=
  list_to_map
    [("OMPI_MCA_mtl", "psm2"); ("HOME", "/root"); ("OMPI_CC", "gcc");
     ("OMPI_MCA_btl", "self")].

(** An Intel MPI installation below /opt/intel/impi/2018.1.163. *)
Definition impi_wrapper_path : string :=
  "/opt/intel/impi/2018.1.163/intel64/bin/mpiicc".

(** A process environment that names the root of Intel MPI. *)
Definition impi_env : gmap string string :=
  list_to_map [("I_MPI_ROOT", "/opt/intel/impi/2018.1.163"); ("HOME", "/root")].

(** [impi_world] with the process environment [e]. *)
Definition impi_world_env (e : gmap string string) : World :=
  {| which := which impi_world;
     realpath := fun _ => impi_wrapper_path;
     run_cmd := run_cmd impi_world;
     read_file := fun _ => Ok mpiicc_script;
     environ := e;
     path_exists := path_exists impi_world;
     extract_compiler_version := extract_compiler_version impi_world;
     get_software_version := get_software_version impi_world;
     det_full_module_name := full_name;
     det_short_module_name := full_name;
     det_module_subdir := fun _ => "mpi" |}.

(** [ompi_world] where only the directory [dir] exists. *)
Definition ompi_world_only (dir : string) : World :=
  {| which := which ompi_world;
     realpath := realpath ompi_world;
     run_cmd := run_cmd ompi_world;
     read_file := read_file ompi_world;
     environ := environ ompi_world;
     path_exists := fun p => String.eqb p dir;
     extract_compiler_version := extract_compiler_version ompi_world;
     get_software_version := get_software_version ompi_world;
     det_full_module_name := full_name;
     det_short_module_name := full_name;
     det_module_subdir := fun _ => "mpi" |}.

(** The world [w] with the process environment [e]. *)
Definition with_environ (e : gmap string string) (w : World) : World :=
  {| which := which w;
     realpath := realpath w;
     run_cmd := run_cmd w;
     read_file := read_file w;
     environ := e;
     path_exists := path_exists w;
     extract_compiler_version := extract_compiler_version w;
     get_software_version := get_software_version w;
     det_full_module_name := det_full_module_name w;
     det_short_module_name := det_short_module_name w;
     det_module_subdir := det_module_subdir w |}.

(** The OpenMPI easyblock that [__init__] builds on [ompi_world] with
    the process environment [e]. *)
Definition ompi_self_in (e : gmap string string) (tc : Toolchain) : Self :=
  {| bundle := easyconfig "OpenMPI" "system" tc;
     mpi_version := "4.0.1";
     mpi_prefix := "/opt/ompi";
     mpi_envvars := select (startswith "OMPI_") e;
     mpi_c_compiler := "gcc";
     c_compiler_version := "9.3.0";
     orig_version := "system";
     orig_installdir := "/easybuild/software/OpenMPI/system" |}.

(** An inherited method that returns the version and the install
    directory it finds. *)
Definition super_sees : method string :=
  fun self => (Ok (version (cfg self) +:+ " " +:+ installdir self), self).

End Demo.

(** ** Properties that the statements below are about *)
Module Props.
Import PyStr Regex SystemMPI.

Definition nl : string := String newline EmptyString.

(** [pre] ends where a line begins, [post] begins where a line ends. *)
Definition line_start (pre : string) : Prop :=
  pre = EmptyString \/ exists p, pre = p +:+ nl.

Definition line_end (post : string) : Prop :=
  post = EmptyString \/ exists q, post = nl +:+ q.

(** [txt] is [pre], then a line made of the white space [ws], the
    label, a colon and a blank, and [value] up to the end of the line,
    then [post]. *)
Definition setting_line_at (pre ws label value post txt : string) : Prop :=
  txt = pre +:+ ws +:+ (label +:+ ": ") +:+ value +:+ post /\
  line_start pre /\
  ws <> EmptyString /\ all_spaces ws = true /\
  has_char newline value = false /\
  line_end post.

(** [txt] has a line that gives [value] for [label]. *)
Definition setting_line (label value txt : string) : Prop :=
  exists pre ws post, setting_line_at pre ws label value post txt.


(** A method leaves the version of the configuration and the install
    directory as it found them. *)
Definition restores_fields (m : method string) : Prop :=
  forall self : Self,
    version (cfg (snd (m self))) = version (cfg self) /\
    installdir (snd (m self)) = installdir self.

(** [self] while the inherited [make_module_step] runs. *)
Definition during_module_step (self : Self) : Self :=
  set_installdir (mpi_prefix self) (set_version (mpi_version self) self).

(** [self] while the inherited [make_module_extend_modpath] runs. *)
Definition during_extend_modpath (self : Self) : Self :=
  set_version (orig_version self) self.

(** An inherited method that only reports the version it finds in the
    configuration. *)
Definition report_version : method string :=
  read (fun self => version (cfg self)).


(** The statements for [items], one after the other. *)
Definition statements (set_environment : string -> string -> string)
    (items : list (string * string)) : string :=
  foldr (fun kv acc => set_environment (fst kv) (snd kv) +:+ acc)
        EmptyString items.

(** Two items in ascending order of their names, which differ. *)
Definition name_lt (a b : string * string) : Prop :=
  String.le (fst a) (fst b) /\ fst a <> fst b.

(** A path that does not end with a slash, and a path component. *)
Definition ends_plain (d : string) : Prop :=
  exists d0 c, d = d0 +:+ String c EmptyString /\ c <> slash.

Definition component (f : string) : Prop :=
  f <> EmptyString /\ has_char slash f = false.

(** The message of line 136. *)
Definition unrecognised (mpi_name : string) : exn :=
  EasyBuildError ("Unrecognised system MPI implementation " +:+ mpi_name).

End Props.

(** ** Proofs *)

Import PyStr Regex SystemMPI Props.

(** *** Sequencing *)

Lemma bind_ok {A B : Type} (a : A) (k : A -> result B) : (Ok a ≫= k) = k a.
Proof. reflexivity. Qed.

Lemma bind_raise {A B : Type} (e : exn) (k : A -> result B) :
  (Raise e ≫= k) = Raise e.
Proof. reflexivity. Qed.

Lemma bind_ok_inv {A B : Type} (r : result A) (k : A -> result B) (b : B) :
  (r ≫= k) = Ok b -> exists a, r = Ok a /\ k a = Ok b.
Proof.
  destruct r as [a|e]; intros H.
  - exists a. split; [reflexivity | exact H].
  - discriminate H.
Qed.

(** *** The stages of [__init__] *)

(** What [__init__] returns once the wrapper is found, the installation
    detected, the prefix present and the compiler version known: the
    outcome of the version check decides. *)
Lemma init_after_detection (w : World) (b : Bundle) (p : string)
    (d : Detected) (ccv : string) :
  find_wrapper w (mpi_c_wrapper_for (lower (name (cfg b)))) = Ok p ->
  detect w (lower (name (cfg b))) (mpi_c_wrapper_for (lower (name (cfg b)))) p = Ok d ->
  path_exists w (d_prefix d) = true ->
  extract_compiler_version w (d_c_compiler d) = Ok ccv ->
  __init__ w b =
  (check_version (version (cfg b)) (d_version d) ≫= fun _ =>
   Ok {| bundle := {| cfg := fix_module_names w (cfg b);
                      installdir := installdir b;
                      toolchain := toolchain b |};
         mpi_version := d_version d;
         mpi_prefix := d_prefix d;
         mpi_envvars := d_envvars d;
         mpi_c_compiler := d_c_compiler d;
         c_compiler_version := ccv;
         orig_version := version (fix_module_names w (cfg b));
         orig_installdir := installdir b |}).
Proof.
  intros Hfind Hdet Hpath Hccv.
  unfold __init__.
  rewrite Hfind, bind_ok, Hdet, bind_ok.
  unfold check_prefix. rewrite Hpath, bind_ok, Hccv, bind_ok.
  reflexivity.
Qed.

(** A successful [__init__] went through every stage. *)
Lemma init_ok_inv (w : World) (b : Bundle) (self : Self) :
  __init__ w b = Ok self ->
  exists p d ccv,
    find_wrapper w (mpi_c_wrapper_for (lower (name (cfg b)))) = Ok p /\
    detect w (lower (name (cfg b)))
           (mpi_c_wrapper_for (lower (name (cfg b)))) p = Ok d /\
    extract_compiler_version w (d_c_compiler d) = Ok ccv /\
    check_version (version (cfg b)) (d_version d) = Ok tt /\
    name (cfg self) = name (cfg b) /\
    mpi_version self = d_version d /\
    mpi_envvars self = d_envvars d.
Proof.
  unfold __init__. intros H.
  apply bind_ok_inv in H as (p & Hp & H).
  apply bind_ok_inv in H as (d & Hd & H).
  apply bind_ok_inv in H as ([] & _ & H).
  apply bind_ok_inv in H as (ccv & Hccv & H).
  apply bind_ok_inv in H as ([] & Hv & H).
  exists p, d, ccv. inversion H; subst; clear H. cbn.
  repeat split; assumption.
Qed.

Lemma check_version_system (derived : string) :
  check_version "system" derived = Ok tt.
Proof. reflexivity. Qed.

Lemma check_version_same (v : string) : check_version v v = Ok tt.
Proof.
  unfold check_version. rewrite (String.eqb_refl v).
  destruct (String.eqb v "system"); reflexivity.
Qed.

Lemma check_version_other (requested derived : string) :
  requested <> "system" -> requested <> derived ->
  check_version requested derived =
  Raise (EasyBuildError
           ("Specified version (" +:+ requested +:+
            ") does not match version reported by MPI (" +:+ derived +:+ ")")).
Proof.
  intros H1 H2. unfold check_version.
  apply String.eqb_neq in H1. apply String.eqb_neq in H2.
  rewrite H1, H2. reflexivity.
Qed.

(** C1. Once the installation has been detected with version [derived],
    construction succeeds (recording [derived] as the MPI version) when
    the requested version is 'system' and when it is [derived] itself, and
    for every other requested version it raises the configuration error
    that quotes the requested and the derived version. *)
Theorem version_validation (w : World) (b : Bundle) (p : string)
    (d : Detected) (ccv : string) :
  find_wrapper w (mpi_c_wrapper_for (lower (name (cfg b)))) = Ok p ->
  detect w (lower (name (cfg b))) (mpi_c_wrapper_for (lower (name (cfg b)))) p = Ok d ->
  path_exists w (d_prefix d) = true ->
  extract_compiler_version w (d_c_compiler d) = Ok ccv ->
  (version (cfg b) = "system" \/ version (cfg b) = d_version d ->
   exists self, __init__ w b = Ok self /\ mpi_version self = d_version d) /\
  (version (cfg b) <> "system" -> version (cfg b) <> d_version d ->
   __init__ w b =
   Raise (EasyBuildError
            ("Specified version (" +:+ version (cfg b) +:+
             ") does not match version reported by MPI (" +:+
             d_version d +:+ ")"))).
Proof.
  intros Hfind Hdet Hpath Hccv.
  rewrite (init_after_detection w b p d ccv Hfind Hdet Hpath Hccv).
  split.
  - intros [Hsys | Hsame].
    + rewrite Hsys, check_version_system, bind_ok. eexists. split; reflexivity.
    + rewrite Hsame, check_version_same, bind_ok. eexists. split; reflexivity.
  - intros H1 H2. rewrite (check_version_other _ _ H1 H2). reflexivity.
Qed.

Import Demo.

Lemma version_validation_witness :
  (find_wrapper ompi_world "mpicc" = Ok "/opt/ompi/bin/mpicc" /\
   detect ompi_world "openmpi" "mpicc" "/opt/ompi/bin/mpicc" = Ok ompi_detected /\
   path_exists ompi_world "/opt/ompi" = true /\
   extract_compiler_version ompi_world "gcc" = Ok "9.3.0") /\
  (exists self,
     __init__ ompi_world (easyconfig "OpenMPI" "system" gcc_toolchain) = Ok self /\
     mpi_version self = "4.0.1") /\
  (exists self,
     __init__ ompi_world (easyconfig "OpenMPI" "4.0.1" gcc_toolchain) = Ok self /\
     mpi_version self = "4.0.1") /\
  __init__ ompi_world (easyconfig "OpenMPI" "4.0.2" gcc_toolchain) =
  Raise (EasyBuildError
           "Specified version (4.0.2) does not match version reported by MPI (4.0.1)").
Proof.
  assert (H1 : find_wrapper ompi_world "mpicc" = Ok "/opt/ompi/bin/mpicc")
    by reflexivity.
  assert (H2 : detect ompi_world "openmpi" "mpicc" "/opt/ompi/bin/mpicc"
               = Ok ompi_detected) by (vm_compute; reflexivity).
  assert (H3 : path_exists ompi_world "/opt/ompi" = true) by reflexivity.
  assert (H4 : extract_compiler_version ompi_world "gcc" = Ok "9.3.0")
    by reflexivity.
  split; [repeat split; assumption |].
  split; [| split].
  - apply (proj1 (version_validation ompi_world
                    (easyconfig "OpenMPI" "system" gcc_toolchain)
                    _ ompi_detected _ H1 H2 H3 H4)).
    left. reflexivity.
  - apply (proj1 (version_validation ompi_world
                    (easyconfig "OpenMPI" "4.0.1" gcc_toolchain)
                    _ ompi_detected _ H1 H2 H3 H4)).
    right. reflexivity.
  - apply (proj2 (version_validation ompi_world
                    (easyconfig "OpenMPI" "4.0.2" gcc_toolchain)
                    _ ompi_detected _ H1 H2 H3 H4)); discriminate.
Defined.

(** *** The branch on the implementation name *)

Lemma wrapper_for_impi : mpi_c_wrapper_for "impi" = "mpiicc".
Proof. reflexivity. Qed.

Lemma wrapper_for_other (mpi_name : string) :
  mpi_name <> "impi" -> mpi_c_wrapper_for mpi_name = "mpicc".
Proof.
  intros H. unfold mpi_c_wrapper_for.
  apply String.eqb_neq in H. rewrite H. reflexivity.
Qed.

Lemma find_wrapper_missing (w : World) (c : string) :
  truthy (which w c) = false ->
  find_wrapper w c = Raise (EasyBuildError (c +:+ " not found in $PATH")).
Proof.
  unfold find_wrapper. destruct (which w c) as [p|]; intros H.
  - rewrite H. reflexivity.
  - reflexivity.
Qed.

Lemma find_wrapper_found (w : World) (c : string) :
  truthy (which w c) = true ->
  exists p, which w c = Some p /\ find_wrapper w c = Ok (realpath w p).
Proof.
  unfold find_wrapper. destruct (which w c) as [p|]; intros H.
  - exists p. rewrite H. split; reflexivity.
  - discriminate H.
Qed.

Lemma detect_unrecognised (w : World) (mpi_name c p : string) :
  mpi_name <> "openmpi" -> mpi_name <> "impi" ->
  detect w mpi_name c p = Raise (unrecognised mpi_name).
Proof.
  intros H1 H2. unfold detect.
  apply String.eqb_neq in H1. apply String.eqb_neq in H2.
  rewrite H1, H2. reflexivity.
Qed.

Lemma detect_as_openmpi (w : World) (c p : string) :
  detect w "openmpi" c p = detect_openmpi w.
Proof. reflexivity. Qed.

Lemma detect_as_impi (w : World) (c p : string) :
  detect w "impi" c p = detect_impi w c p.
Proof. reflexivity. Qed.

(** C9, as the code has it.  The wrapper is 'mpiicc' when the lowercased
    name is 'impi' and 'mpicc' for every other name; when the wrapper is
    not found, construction raises the error "<wrapper> not found in
    $PATH", whatever the name; a name that is neither 'openmpi' nor 'impi'
    in lower case always makes construction fail, with that error when
    'mpicc' is not found and otherwise with the error "Unrecognised system
    MPI implementation <lowercased name>". *)
Theorem wrapper_then_unsupported_name (w : World) (b : Bundle) :
  (lower (name (cfg b)) = "impi" ->
   mpi_c_wrapper_for (lower (name (cfg b))) = "mpiicc") /\
  (lower (name (cfg b)) <> "impi" ->
   mpi_c_wrapper_for (lower (name (cfg b))) = "mpicc") /\
  (truthy (which w (mpi_c_wrapper_for (lower (name (cfg b))))) = false ->
   __init__ w b =
   Raise (EasyBuildError
            (mpi_c_wrapper_for (lower (name (cfg b))) +:+ " not found in $PATH"))) /\
  (lower (name (cfg b)) <> "openmpi" -> lower (name (cfg b)) <> "impi" ->
   (truthy (which w "mpicc") = false ->
    __init__ w b = Raise (EasyBuildError "mpicc not found in $PATH")) /\
   (truthy (which w "mpicc") = true ->
    __init__ w b = Raise (unrecognised (lower (name (cfg b)))))).
Proof.
  split; [| split; [| split]].
  - intros H. rewrite H. apply wrapper_for_impi.
  - apply wrapper_for_other.
  - intros H. unfold __init__.
    rewrite (find_wrapper_missing _ _ H). reflexivity.
  - intros H1 H2. unfold __init__.
    rewrite (wrapper_for_other _ H2). split; intros H.
    + rewrite (find_wrapper_missing _ _ H). reflexivity.
    + destruct (find_wrapper_found _ _ H) as (p & _ & Hp).
      rewrite Hp, bind_ok, (detect_unrecognised _ _ _ _ H1 H2).
      reflexivity.
Qed.

Lemma wrapper_then_unsupported_name_witness :
  __init__ bare_world (easyconfig "MVAPICH2" "2.3" gcc_toolchain) =
  Raise (EasyBuildError "mpicc not found in $PATH") /\
  __init__ ompi_world (easyconfig "MVAPICH2" "2.3" gcc_toolchain) =
  Raise (EasyBuildError "Unrecognised system MPI implementation mvapich2") /\
  __init__ bare_world (easyconfig "impi" "system" gcc_toolchain) =
  Raise (EasyBuildError "mpiicc not found in $PATH").
Proof.
  split; [| split].
  - apply (proj2 (proj2 (proj2 (wrapper_then_unsupported_name bare_world
             (easyconfig "MVAPICH2" "2.3" gcc_toolchain))))).
    + vm_compute. discriminate.
    + vm_compute. discriminate.
    + reflexivity.
  - apply (proj2 (proj2 (proj2 (wrapper_then_unsupported_name ompi_world
             (easyconfig "MVAPICH2" "2.3" gcc_toolchain))))).
    + vm_compute. discriminate.
    + vm_compute. discriminate.
    + reflexivity.
  - apply (proj1 (proj2 (proj2 (wrapper_then_unsupported_name bare_world
             (easyconfig "impi" "system" gcc_toolchain))))).
    reflexivity.
Defined.

(** C9, as stated, fails: on a machine without 'mpicc' the name
    'mvapich2', which is neither OpenMPI nor Intel MPI, is not answered
    with the unsupported-implementation error but with the error of the
    missing wrapper. *)
Lemma unsupported_name_without_wrapper :
  lower "mvapich2" <> "openmpi" /\ lower "mvapich2" <> "impi" /\
  __init__ bare_world (easyconfig "mvapich2" "2.3" gcc_toolchain) =
  Raise (EasyBuildError "mpicc not found in $PATH") /\
  __init__ bare_world (easyconfig "mvapich2" "2.3" gcc_toolchain) <>
  Raise (unrecognised (lower "mvapich2")).
Proof.
  repeat split; try (vm_compute; discriminate).
Qed.

(** *** [make_module_req_guess] *)

Lemma fix_module_names_name (w : World) (c : EasyConfig) :
  name (fix_module_names w c) = name c.
Proof. reflexivity. Qed.

(** With the name 'impi' as it is written, the hints are the five lists
    of 64-bit subdirectories; with any other name they are empty. *)
Lemma requirement_hints (self : Self) :
  (name (cfg self) = "impi" ->
   make_module_req_guess self !! "PATH" = Some ["bin/intel64"; "bin64"] /\
   make_module_req_guess self !! "LD_LIBRARY_PATH" = Some ["lib/em64t"; "lib64"] /\
   make_module_req_guess self !! "LIBRARY_PATH" = Some ["lib/em64t"; "lib64"] /\
   make_module_req_guess self !! "CPATH" = Some ["include64"] /\
   make_module_req_guess self !! "MIC_LD_LIBRARY_PATH" = Some ["mic/lib"]) /\
  (name (cfg self) <> "impi" -> make_module_req_guess self = ∅).
Proof.
  unfold make_module_req_guess. split; intros H.
  - rewrite H. cbn. repeat split; reflexivity.
  - apply String.eqb_neq in H. rewrite H. reflexivity.
Qed.

Lemma requirement_hints_openmpi (self : Self) :
  lower (name (cfg self)) = "openmpi" -> make_module_req_guess self = ∅.
Proof.
  intros H. apply (proj2 (requirement_hints self)).
  intros Himpi. rewrite Himpi in H. discriminate H.
Qed.

(** C10. Construction branches on the lowercased name, so that every
    spelling of 'openmpi' and of 'impi' is accepted, while
    [make_module_req_guess] gives hints for the name written 'impi' and
    for no other; hence a configured name that is 'impi' in lower case
    without being written 'impi' is taken for Intel MPI by construction
    (wrapper 'mpiicc', Intel MPI detection) and yet gets no requirement
    hints. *)
Theorem case_inconsistent_name (w : World) (b : Bundle) :
  lower (name (cfg b)) = "impi" -> name (cfg b) <> "impi" ->
  mpi_c_wrapper_for (lower (name (cfg b))) = "mpiicc" /\
  (forall p : string,
     detect w (lower (name (cfg b))) "mpiicc" p = detect_impi w "mpiicc" p) /\
  (forall self : Self,
     __init__ w b = Ok self -> make_module_req_guess self = ∅) /\
  (forall (b' : Bundle) (c p : string),
     lower (name (cfg b')) = "openmpi" ->
     detect w (lower (name (cfg b'))) c p = detect_openmpi w) /\
  (forall self : Self,
     make_module_req_guess self <> ∅ <-> name (cfg self) = "impi").
Proof.
  intros Hlow Hraw. rewrite Hlow.
  split; [reflexivity | split; [| split; [| split]]].
  - intros p. reflexivity.
  - intros self Hinit.
    apply init_ok_inv in Hinit as (p & d & ccv & _ & _ & _ & _ & Hname & _).
    apply (proj2 (requirement_hints self)). rewrite Hname. exact Hraw.
  - intros b' c p ->. reflexivity.
  - intros self. destruct (requirement_hints self) as [Himpi Hother]. split.
    + intros Hne. destruct (String.eqb_spec (name (cfg self)) "impi") as [E|E];
        [exact E | destruct (Hne (Hother E))].
    + intros E Hempty. destruct (Himpi E) as [Hpath _].
      rewrite Hempty in Hpath. discriminate Hpath.
Qed.

Lemma case_inconsistent_name_witness :
  (lower "IMPI" = "impi" /\ "IMPI" <> "impi") /\
  exists self : Self,
    __init__ impi_world (easyconfig "IMPI" "system" gcc_toolchain) = Ok self /\
    mpi_version self = "2017.1.132" /\
    make_module_req_guess self = ∅.
Proof.
  split; [split; [reflexivity | discriminate] |].
  destruct (__init__ impi_world (easyconfig "IMPI" "system" gcc_toolchain))
    as [self|e] eqn:E.
  - exists self. split; [reflexivity | split].
    + vm_compute in E. inversion E. reflexivity.
    + apply (proj1 (proj2 (proj2 (case_inconsistent_name impi_world
                (easyconfig "IMPI" "system" gcc_toolchain)
                eq_refl ltac:(discriminate)))) self E).
  - vm_compute in E. discriminate E.
Defined.

(** C8 on the name 'IMPI': construction succeeds and detects Intel MPI
    2017.1.132 through 'mpiicc', and the requirement hints are empty: not
    one of the five Intel MPI keys is there. *)
Theorem impi_hints_empty_for_uppercase_name :
  exists self : Self,
    __init__ impi_world (easyconfig "IMPI" "system" gcc_toolchain) = Ok self /\
    mpi_version self = "2017.1.132" /\
    mpi_c_compiler self = "icc" /\
    make_module_req_guess self = ∅ /\
    make_module_req_guess self !! "PATH" = None /\
    make_module_req_guess self !! "LD_LIBRARY_PATH" = None /\
    make_module_req_guess self !! "LIBRARY_PATH" = None /\
    make_module_req_guess self !! "CPATH" = None /\
    make_module_req_guess self !! "MIC_LD_LIBRARY_PATH" = None.
Proof.
  destruct (__init__ impi_world (easyconfig "IMPI" "system" gcc_toolchain))
    as [self|e] eqn:E; vm_compute in E; [| discriminate E].
  exists self. inversion E. repeat split; reflexivity.
Qed.

(** *** Intel MPI: the version in the wrapper script *)

(** C3 on the code: when the text of the wrapper has no match for the
    version pattern, construction does not raise the configuration error
    "No version found for system Intel MPI"; the call of [group] on the
    missing match raises an AttributeError before that check is
    reached. *)
Theorem impi_without_version_raises_attribute_error
    (w : World) (b : Bundle) (p contents : string) :
  lower (name (cfg b)) = "impi" ->
  find_wrapper w "mpiicc" = Ok p ->
  read_file w p = Ok contents ->
  prefix_regex_search contents = None ->
  __init__ w b =
  Raise (AttributeError "'NoneType' object has no attribute 'group'").
Proof.
  intros Hname Hfind Hread Hnone. unfold __init__.
  rewrite Hname, wrapper_for_impi, Hfind, bind_ok, detect_as_impi.
  unfold detect_impi. rewrite Hread, bind_ok, Hnone. reflexivity.
Qed.

Lemma impi_without_version_witness :
  (lower "impi" = "impi" /\
   find_wrapper (impi_world_with "#!/bin/sh") "mpiicc" = Ok mpiicc_path /\
   read_file (impi_world_with "#!/bin/sh") mpiicc_path = Ok "#!/bin/sh" /\
   prefix_regex_search "#!/bin/sh" = None) /\
  __init__ (impi_world_with "#!/bin/sh") (easyconfig "impi" "system" gcc_toolchain) =
  Raise (AttributeError "'NoneType' object has no attribute 'group'").
Proof.
  split; [repeat split; reflexivity |].
  apply (impi_without_version_raises_attribute_error
           (impi_world_with "#!/bin/sh")
           (easyconfig "impi" "system" gcc_toolchain) mpiicc_path "#!/bin/sh");
    reflexivity.
Defined.

(** *** The methods that substitute fields of [self] *)

Lemma toolchain_compiler_dummy (w : World) (self : Self) :
  COMPILER_CC (toolchain self) = "DUMMYCC" ->
  toolchain_compiler w self = (Ok ("gcc", Some (c_compiler_version self)), self).
Proof.
  intros H. unfold toolchain_compiler, mbind, method_bind, read.
  rewrite H. reflexivity.
Qed.

Lemma toolchain_compiler_real (w : World) (self : Self) (m : string)
    (ms : list string) :
  COMPILER_CC (toolchain self) <> "DUMMYCC" ->
  COMPILER_MODULE_NAME (toolchain self) = m :: ms ->
  toolchain_compiler w self =
  (Ok (COMPILER_CC (toolchain self), get_software_version w m), self).
Proof.
  intros H Hm. unfold toolchain_compiler, mbind, method_bind, read.
  apply String.eqb_neq in H. rewrite H, Hm. reflexivity.
Qed.

Lemma toolchain_compiler_state (w : World) (self : Self) :
  snd (toolchain_compiler w self) = self.
Proof.
  unfold toolchain_compiler, mbind, method_bind, read.
  destruct (String.eqb (COMPILER_CC (toolchain self)) "DUMMYCC"); [reflexivity |].
  destruct (COMPILER_MODULE_NAME (toolchain self)); reflexivity.
Qed.

(** [make_module_step], step by step. *)
Lemma make_module_step_eq (w : World) (sup : bool -> method string)
    (fake : bool) (self : Self) :
  make_module_step w sup fake self =
  match fst (toolchain_compiler w self) with
  | Ok tc =>
      if negb (String.eqb (mpi_c_compiler self) (fst tc))
         || str_ne (c_compiler_version self) (snd tc)
      then (Raise (EasyBuildError (mismatch_message (fst tc) (snd tc) self)), self)
      else
        match sup fake (during_module_step self) with
        | (Ok res, s1) =>
            (Ok res,
             set_version (orig_version s1) (set_installdir (orig_installdir s1) s1))
        | (Raise e, s1) => (Raise e, s1)
        end
  | Raise e => (Raise e, self)
  end.
Proof.
  unfold make_module_step, mbind at 1, method_bind at 1.
  pose proof (toolchain_compiler_state w self) as Hst.
  destruct (toolchain_compiler w self) as [[tc|e] s0]; cbn in Hst; subst s0;
    [| reflexivity].
  cbn [fst]. unfold mbind, method_bind, read, id.
  destruct (negb (String.eqb (mpi_c_compiler self) (fst tc))
            || str_ne (c_compiler_version self) (snd tc)); [reflexivity |].
  unfold assign, during_module_step. cbn [fst snd].
  destruct (sup fake _) as [[res|e] s1]; reflexivity.
Qed.

(** [make_module_extend_modpath], step by step. *)
Lemma make_module_extend_modpath_eq (sup : method string) (self : Self) :
  make_module_extend_modpath sup self =
  match sup (during_extend_modpath self) with
  | (Ok res, s1) => (Ok res, set_version (mpi_version s1) s1)
  | (Raise e, s1) => (Raise e, s1)
  end.
Proof.
  unfold make_module_extend_modpath, mbind, method_bind, read, assign.
  destruct (sup _) as [[res|e] s1]; reflexivity.
Qed.

Lemma str_ne_true (a : string) (b : option string) :
  b <> Some a -> str_ne a b = true.
Proof.
  destruct b as [s|]; intros H; [| reflexivity].
  cbn. destruct (String.eqb_spec a s) as [->|]; [congruence | reflexivity].
Qed.

Lemma str_ne_same (a : string) : str_ne a (Some a) = false.
Proof. cbn. rewrite String.eqb_refl. reflexivity. Qed.

(** C4. With a toolchain whose C compiler is not 'DUMMYCC', a compiler
    name or version that differs from the one detected underneath the MPI
    makes [make_module_step] raise the consistency error, with [self]
    untouched and the inherited method not called; with 'DUMMYCC' the
    toolchain is not asked: the name is 'gcc' and the version the one
    derived at construction, so the check is on the name alone. *)
Theorem compiler_consistency_check (w : World) (sup : bool -> method string)
    (fake : bool) (self : Self) :
  (forall (m : string) (ms : list string),
     COMPILER_CC (toolchain self) <> "DUMMYCC" ->
     COMPILER_MODULE_NAME (toolchain self) = m :: ms ->
     COMPILER_CC (toolchain self) <> mpi_c_compiler self \/
     get_software_version w m <> Some (c_compiler_version self) ->
     make_module_step w sup fake self =
     (Raise (EasyBuildError
               (mismatch_message (COMPILER_CC (toolchain self))
                                 (get_software_version w m) self)), self)) /\
  (COMPILER_CC (toolchain self) = "DUMMYCC" ->
   toolchain_compiler w self =
   (Ok ("gcc", Some (c_compiler_version self)), self) /\
   (mpi_c_compiler self <> "gcc" ->
    make_module_step w sup fake self =
    (Raise (EasyBuildError
              (mismatch_message "gcc" (Some (c_compiler_version self)) self)),
     self)) /\
   (mpi_c_compiler self = "gcc" ->
    make_module_step w sup fake self =
    match sup fake (during_module_step self) with
    | (Ok res, s1) =>
        (Ok res,
         set_version (orig_version s1) (set_installdir (orig_installdir s1) s1))
    | (Raise e, s1) => (Raise e, s1)
    end)).
Proof.
  split.
  - intros m ms Hreal Hm Hdiff. rewrite make_module_step_eq.
    rewrite (toolchain_compiler_real w self m ms Hreal Hm). cbn [fst snd].
    destruct Hdiff as [Hn | Hv].
    + destruct (String.eqb_spec (mpi_c_compiler self) (COMPILER_CC (toolchain self)))
        as [E|_]; [congruence | reflexivity].
    + rewrite (str_ne_true _ _ Hv), orb_true_r. reflexivity.
  - intros Hdummy. split; [apply toolchain_compiler_dummy; exact Hdummy |].
    split; intros Hcc; rewrite make_module_step_eq;
      rewrite (toolchain_compiler_dummy w self Hdummy); cbn [fst snd];
      rewrite str_ne_same, orb_false_r.
    + apply String.eqb_neq in Hcc. rewrite Hcc. reflexivity.
    + rewrite Hcc. reflexivity.
Qed.

Lemma compiler_consistency_check_witness :
  make_module_step ompi_world (fun _ => super_ok) false (ompi_self clang_toolchain) =
  (Raise (EasyBuildError
     "C compiler for toolchain (clang/None) and underneath MPI (gcc/9.3.0) do not match!"),
   ompi_self clang_toolchain) /\
  toolchain_compiler bare_world (ompi_self dummy_toolchain) =
  (Ok ("gcc", Some "9.3.0"), ompi_self dummy_toolchain).
Proof.
  split.
  - apply (proj1 (compiler_consistency_check ompi_world (fun _ => super_ok) false
                    (ompi_self clang_toolchain)) "Clang" []).
    + discriminate.
    + reflexivity.
    + left. discriminate.
  - apply (proj2 (compiler_consistency_check bare_world (fun _ => super_ok) false
                    (ompi_self dummy_toolchain))).
    reflexivity.
Defined.

(** C5. [make_module_extend_modpath] runs the inherited method on [self]
    with the version of the configuration set to the version that was
    requested (an inherited method that reports the version it finds
    reports that one), and when the inherited method returns, its result
    is returned as it is and the version is set to the derived MPI
    version. *)
Theorem extend_modpath_versions (sup : method string) (self : Self)
    (res : string) (s1 : Self) :
  sup (during_extend_modpath self) = (Ok res, s1) ->
  version (cfg (during_extend_modpath self)) = orig_version self /\
  fst (make_module_extend_modpath report_version self) = Ok (orig_version self) /\
  fst (make_module_extend_modpath sup self) = Ok res /\
  snd (make_module_extend_modpath sup self) = set_version (mpi_version s1) s1 /\
  version (cfg (snd (make_module_extend_modpath sup self))) = mpi_version s1.
Proof.
  intros Hsup. rewrite !make_module_extend_modpath_eq, Hsup.
  repeat split; reflexivity.
Qed.

Lemma extend_modpath_versions_witness :
  super_ok (during_extend_modpath (ompi_self gcc_toolchain)) =
  (Ok "modules/OpenMPI/system", ompi_self gcc_toolchain) /\
  fst (make_module_extend_modpath super_ok (ompi_self gcc_toolchain)) =
  Ok "modules/OpenMPI/system" /\
  version (cfg (snd (make_module_extend_modpath super_ok (ompi_self gcc_toolchain)))) =
  "4.0.1".
Proof.
  assert (H : super_ok (during_extend_modpath (ompi_self gcc_toolchain)) =
              (Ok "modules/OpenMPI/system", ompi_self gcc_toolchain))
    by reflexivity.
  split; [exact H |].
  pose proof (extend_modpath_versions super_ok (ompi_self gcc_toolchain) _ _ H)
    as (_ & _ & Hres & _ & Hver).
  split; [exact Hres | exact Hver].
Defined.

(** When the inherited method raises, nothing is set back: [self] stays
    as the inherited method left it (or, for an error of the compiler
    check, as it was). *)
Lemma no_restore_when_super_raises (w : World)
    (sup_step : bool -> method string) (sup_ext : method string)
    (fake : bool) (self : Self) :
  (forall (e : exn) (s2 : Self),
     make_module_step w sup_step fake self = (Raise e, s2) ->
     s2 = self \/ sup_step fake (during_module_step self) = (Raise e, s2)) /\
  (forall (e : exn) (s2 : Self),
     make_module_extend_modpath sup_ext self = (Raise e, s2) ->
     sup_ext (during_extend_modpath self) = (Raise e, s2)).
Proof.
  split.
  - intros e s2. rewrite make_module_step_eq.
    destruct (fst (toolchain_compiler w self)) as [tc|e0].
    + destruct (negb _ || _).
      * intros H. inversion H. left. reflexivity.
      * destruct (sup_step fake _) as [[r|e1] s1]; [discriminate |].
        intros H. inversion H; subst. right. reflexivity.
    + intros H. inversion H. left. reflexivity.
  - intros e s2. rewrite make_module_extend_modpath_eq.
    destruct (sup_ext _) as [[r|e1] s1]; [discriminate |].
    intros H. inversion H; subst. reflexivity.
Qed.

(** C2, as the code has it.  When [make_module_step] returns, the version
    of the configuration and the install directory are the ones recorded
    at construction, hence the ones from before the call if the fields
    held the recorded values then; when [make_module_extend_modpath]
    returns, the install directory is as the inherited method left it and
    the version is the derived MPI version. *)
Theorem substitution_reverts_on_return (w : World)
    (sup_step : bool -> method string) (sup_ext : method string)
    (fake : bool) (self : Self) :
  (forall (res : string) (s2 : Self),
     make_module_step w sup_step fake self = (Ok res, s2) ->
     version (cfg s2) = orig_version s2 /\ installdir s2 = orig_installdir s2) /\
  (forall (res : string) (s2 : Self),
     make_module_step w sup_step fake self = (Ok res, s2) ->
     orig_version s2 = version (cfg self) ->
     orig_installdir s2 = installdir self ->
     version (cfg s2) = version (cfg self) /\ installdir s2 = installdir self) /\
  (forall (res : string) (s2 : Self),
     make_module_extend_modpath sup_ext self = (Ok res, s2) ->
     version (cfg s2) = mpi_version s2 /\
     installdir s2 = installdir (snd (sup_ext (during_extend_modpath self)))).
Proof.
  assert (Hstep : forall (res : string) (s2 : Self),
             make_module_step w sup_step fake self = (Ok res, s2) ->
             version (cfg s2) = orig_version s2 /\
             installdir s2 = orig_installdir s2).
  { intros res s2. rewrite make_module_step_eq.
    destruct (fst (toolchain_compiler w self)) as [tc|e]; [| discriminate].
    destruct (negb _ || _); [discriminate |].
    destruct (sup_step fake _) as [[r|e] s1]; [| discriminate].
    intros H. inversion H; subst. split; reflexivity. }
  split; [exact Hstep | split].
  - intros res s2 H Hv Hd. destruct (Hstep res s2 H) as [Hv' Hd'].
    split; congruence.
  - intros res s2. rewrite make_module_extend_modpath_eq.
    destruct (sup_ext _) as [[r|e] s1]; [| discriminate].
    intros H. inversion H; subst. split; reflexivity.
Qed.

Lemma init_ompi_self (tc : Toolchain) :
  __init__ ompi_world (easyconfig "OpenMPI" "system" tc) = Ok (ompi_self tc).
Proof. destruct tc. vm_compute. reflexivity. Qed.

Lemma substitution_reverts_on_return_witness :
  make_module_step ompi_world (fun _ => super_ok) false (ompi_self gcc_toolchain) =
  (Ok "modules/OpenMPI/4.0.1", ompi_self gcc_toolchain) /\
  (version (cfg (ompi_self gcc_toolchain)) = "system" /\
   installdir (ompi_self gcc_toolchain) = "/easybuild/software/OpenMPI/system") /\
  make_module_extend_modpath super_ok (ompi_self gcc_toolchain) =
  (Ok "modules/OpenMPI/system", set_version "4.0.1" (ompi_self gcc_toolchain)) /\
  (version (cfg (set_version "4.0.1" (ompi_self gcc_toolchain))) = "4.0.1" /\
   installdir (set_version "4.0.1" (ompi_self gcc_toolchain)) =
   "/easybuild/software/OpenMPI/system").
Proof.
  assert (Hok : make_module_step ompi_world (fun _ => super_ok) false
                  (ompi_self gcc_toolchain) =
                (Ok "modules/OpenMPI/4.0.1", ompi_self gcc_toolchain))
    by (vm_compute; reflexivity).
  assert (Hext : make_module_extend_modpath super_ok (ompi_self gcc_toolchain) =
                 (Ok "modules/OpenMPI/system",
                  set_version "4.0.1" (ompi_self gcc_toolchain)))
    by (vm_compute; reflexivity).
  split; [exact Hok | split; [| split; [exact Hext |]]].
  - apply (proj1 (substitution_reverts_on_return ompi_world (fun _ => super_ok)
                    super_ok false (ompi_self gcc_toolchain)) _ _ Hok).
  - apply (proj2 (proj2 (substitution_reverts_on_return ompi_world
                    (fun _ => super_ok) super_ok false
                    (ompi_self gcc_toolchain))) _ _ Hext).
Defined.

(** C2, as stated, fails on the easyblock that [__init__] builds for the
    OpenMPI easyconfig with version 'system': [make_module_extend_modpath]
    leaves the version at '4.0.1'; [make_module_step], when the inherited
    method raises, leaves the version at '4.0.1' and the install directory
    at '/opt/ompi'; and [make_module_step] called after
    [make_module_extend_modpath] turns the version '4.0.1' that it finds
    into 'system'. *)
Lemma substitution_not_reverted :
  __init__ ompi_world (easyconfig "OpenMPI" "system" gcc_toolchain) =
  Ok (ompi_self gcc_toolchain) /\
  version (cfg (ompi_self gcc_toolchain)) = "system" /\
  installdir (ompi_self gcc_toolchain) = "/easybuild/software/OpenMPI/system" /\
  version (cfg (snd (make_module_extend_modpath super_ok
                       (ompi_self gcc_toolchain)))) = "4.0.1" /\
  version (cfg (snd (make_module_step ompi_world (fun _ => super_fails) false
                       (ompi_self gcc_toolchain)))) = "4.0.1" /\
  installdir (snd (make_module_step ompi_world (fun _ => super_fails) false
                     (ompi_self gcc_toolchain))) = "/opt/ompi" /\
  version (cfg (snd (make_module_step ompi_world (fun _ => super_ok) false
                       (snd (make_module_extend_modpath super_ok
                               (ompi_self gcc_toolchain)))))) = "system" /\
  ~ restores_fields (make_module_extend_modpath super_ok) /\
  ~ restores_fields (make_module_step ompi_world (fun _ => super_fails) false) /\
  ~ restores_fields (make_module_step ompi_world (fun _ => super_ok) false).
Proof.
  split; [apply init_ompi_self |].
  do 6 (split; [vm_compute; reflexivity |]).
  split; [| split].
  - intros H. destruct (H (ompi_self gcc_toolchain)) as [Hv _].
    vm_compute in Hv. discriminate Hv.
  - intros H. destruct (H (ompi_self gcc_toolchain)) as [Hv _].
    vm_compute in Hv. discriminate Hv.
  - intros H.
    destruct (H (snd (make_module_extend_modpath super_ok
                        (ompi_self gcc_toolchain)))) as [Hv _].
    vm_compute in Hv. discriminate Hv.
Qed.

(** *** Strings and dictionaries *)

Lemma startswith_spec (p s : string) :
  startswith p s = true <-> exists t, s = p +:+ t.
Proof.
  revert s. induction p as [|a p IH]; intros s; cbn.
  - split; [intros _; exists s; reflexivity | reflexivity].
  - destruct s as [|b s].
    + split; [discriminate | intros [t Ht]; discriminate Ht].
    + rewrite andb_true_iff, Ascii.eqb_eq, IH. split.
      * intros [-> [t ->]]. exists t. reflexivity.
      * intros [t Ht]. inversion Ht. split; [reflexivity | exists t; reflexivity].
Qed.


Lemma select_lookup (f : string -> bool) (d : gmap string string)
    (k v : string) :
  select f d !! k = Some v <-> d !! k = Some v /\ f k = true.
Proof. unfold select. rewrite map_lookup_filter_Some. reflexivity. Qed.

Lemma select_lookup_None (f : string -> bool) (d : gmap string string)
    (k : string) :
  select f d !! k = None <-> d !! k = None \/ f k = false.
Proof.
  unfold select. rewrite map_lookup_filter_None. split.
  - intros [H | H]; [left; exact H |].
    destruct (d !! k) as [v|] eqn:E; [| left; reflexivity].
    right. specialize (H v eq_refl). cbn in H.
    destruct (f k); [congruence | reflexivity].
  - intros [H | H]; [left; exact H |].
    right. intros v _. cbn. rewrite H. discriminate.
Qed.



Lemma detect_openmpi_envvars (w : World) (d : Detected) :
  detect_openmpi w = Ok d -> d_envvars d = select (startswith "OMPI_") (environ w).
Proof.
  unfold detect_openmpi. intros H.
  apply bind_ok_inv in H as (out & _ & H).
  apply bind_ok_inv in H as (ver & _ & H).
  apply bind_ok_inv in H as (prefix & _ & H).
  apply bind_ok_inv in H as (cc & _ & H).
  inversion H. reflexivity.
Qed.




(** *** The search of [extract_ompi_setting] *)

Lemma append_nil (s : string) : EmptyString +:+ s = s.
Proof. reflexivity. Qed.

Lemma append_cons (c : ascii) (s t : string) :
  String c s +:+ t = String c (s +:+ t).
Proof. reflexivity. Qed.

Lemma append_assoc (a b c : string) : (a +:+ b) +:+ c = a +:+ b +:+ c.
Proof.
  induction a as [|x a IH]; [reflexivity |].
  rewrite !append_cons, IH. reflexivity.
Qed.

Lemma has_char_app (c : ascii) (a b : string) :
  has_char c (a +:+ b) = has_char c a || has_char c b.
Proof.
  induction a as [|x a IH]; [reflexivity |].
  rewrite append_cons. cbn [has_char]. rewrite IH, orb_assoc. reflexivity.
Qed.



Lemma contains_of_startswith (lit s : string) :
  startswith lit s = true -> contains lit s = true.
Proof. intros H. destruct s; cbn [contains]; rewrite H; reflexivity. Qed.






Lemma search_setting_eq (lit : string) (bol : bool) (s : string) :
  search_setting lit bol s =
  match (if bol then spaces_then lit s else None) with
  | Some r => Some (line_rest r)
  | None =>
      match s with
      | EmptyString => None
      | String c s' => search_setting lit (Ascii.eqb c newline) s'
      end
  end.
Proof. destruct s; reflexivity. Qed.


Section FirstLine.

(** The literal begins with [c], which is no white space, and has no
    newline; the text from the line on is [ws], the literal and [tail]. *)
Variables (c : ascii) (l ws tail : string).
Hypothesis c_no_space : is_space c = false.
Hypothesis lit_one_line : has_char newline (String c l) = false.
Hypothesis ws_some : ws <> EmptyString.
Hypothesis ws_spaces : all_spaces ws = true.




End FirstLine.










(** *** [make_module_extra] *)

#[local] Instance item_le_total : Total item_le.
Proof.
  intros a b. unfold item_le.
  destruct (decide (fst a = fst b)) as [E|E].
  - destruct (total String.le (snd a) (snd b)) as [H|H].
    + left. rewrite E. split; [reflexivity | intros _; exact H].
    + right. rewrite E. split; [reflexivity | intros _; exact H].
  - destruct (total String.le (fst a) (fst b)) as [H|H].
    + left. split; [exact H | intros E'; destruct (E E')].
    + right. split; [exact H | intros E'; destruct (E (eq_sym E'))].
Qed.

#[local] Instance item_le_trans : Transitive item_le.
Proof.
  intros a b c [Hab Hab'] [Hbc Hbc']. split.
  - etrans; eassumption.
  - intros E. rewrite <- E in Hbc.
    assert (Eab : fst a = fst b) by (apply (anti_symm String.le); assumption).
    assert (Ebc : fst b = fst c) by congruence.
    etrans; [apply Hab', Eab | apply Hbc', Ebc].
Qed.

Lemma add_statements_eq (set_env : string -> string -> string)
    (items : list (string * string)) (txt : string) :
  add_statements set_env txt items = txt +:+ statements set_env items.
Proof.
  unfold add_statements. revert txt.
  induction items as [|kv items IH]; intros txt; cbn [foldl statements foldr].
  - induction txt as [|c txt IHt]; [reflexivity |].
    rewrite append_cons, <- IHt. reflexivity.
  - rewrite IH, append_assoc. reflexivity.
Qed.

Lemma sorted_items_elem (d : gmap string string) (k v : string) :
  (k, v) ∈ sorted_items d <-> d !! k = Some v.
Proof.
  unfold sorted_items. rewrite merge_sort_Permutation.
  apply elem_of_map_to_list.
Qed.

Lemma sorted_items_length (d : gmap string string) :
  length (sorted_items d) = size d.
Proof.
  unfold sorted_items. rewrite merge_sort_Permutation.
  apply length_map_to_list.
Qed.

Lemma strictly_sorted (l : list (string * string)) :
  StronglySorted item_le l -> NoDup (l.*1) -> StronglySorted name_lt l.
Proof.
  induction 1 as [|x l Hl IH Hx]; intros Hnd; [constructor |].
  cbn in Hnd. apply NoDup_cons in Hnd as [Hnotin Hnd].
  constructor; [apply IH; exact Hnd |].
  apply Forall_forall. intros y Hy.
  rewrite Forall_forall in Hx. destruct (Hx y Hy) as [Hle _].
  split; [exact Hle |].
  intros E. apply Hnotin. rewrite E. apply list_elem_of_fmap. exists y.
  split; [reflexivity | exact Hy].
Qed.

Lemma sorted_items_sorted (d : gmap string string) :
  StronglySorted name_lt (sorted_items d).
Proof.
  apply strictly_sorted.
  - apply StronglySorted_merge_sort; apply _.
  - unfold sorted_items. rewrite merge_sort_Permutation.
    apply NoDup_fst_map_to_list.
Qed.

(** X1. When the inherited [make_module_extra] returns a text,
    [make_module_extra] returns that text followed by one statement for
    each recorded variable and nothing else, in strictly ascending order
    of the names. *)
Theorem module_extra_statements (set_env : string -> string -> string)
    (sup : method string) (self : Self) (txt : string) (s1 : Self) :
  sup self = (Ok txt, s1) ->
  make_module_extra set_env sup self =
  (Ok (txt +:+ statements set_env (sorted_items (mpi_envvars s1))), s1) /\
  (forall k v : string,
     (k, v) ∈ sorted_items (mpi_envvars s1) <-> mpi_envvars s1 !! k = Some v) /\
  length (sorted_items (mpi_envvars s1)) = size (mpi_envvars s1) /\
  StronglySorted name_lt (sorted_items (mpi_envvars s1)).
Proof.
  intros Hsup. split; [| split; [| split]].
  - unfold make_module_extra, mbind, method_bind, read. rewrite Hsup.
    cbn. rewrite add_statements_eq. reflexivity.
  - intros k v. apply sorted_items_elem.
  - apply sorted_items_length.
  - apply sorted_items_sorted.
Qed.

Lemma module_extra_statements_witness :
  super_ok (ompi_self gcc_toolchain) =
  (Ok "modules/OpenMPI/system", ompi_self gcc_toolchain) /\
  make_module_extra setenv super_ok (ompi_self gcc_toolchain) =
  (Ok ("modules/OpenMPI/system" +:+ "setenv OMPI_MCA_btl self" +:+ nl),
   ompi_self gcc_toolchain).
Proof.
  assert (H : super_ok (ompi_self gcc_toolchain) =
              (Ok "modules/OpenMPI/system", ompi_self gcc_toolchain))
    by reflexivity.
  split; [exact H |].
  destruct (module_extra_statements setenv super_ok (ompi_self gcc_toolchain)
              _ _ H) as [Heq _].
  rewrite Heq. vm_compute. reflexivity.
Defined.

(** *** What a successful [__init__] has established *)

Lemma init_ok_fields (w : World) (b : Bundle) (self : Self) :
  __init__ w b = Ok self ->
  exists p d ccv,
    find_wrapper w (mpi_c_wrapper_for (lower (name (cfg b)))) = Ok p /\
    detect w (lower (name (cfg b)))
           (mpi_c_wrapper_for (lower (name (cfg b)))) p = Ok d /\
    path_exists w (d_prefix d) = true /\
    extract_compiler_version w (d_c_compiler d) = Ok ccv /\
    check_version (version (cfg b)) (d_version d) = Ok tt /\
    self = {| bundle := {| cfg := fix_module_names w (cfg b);
                           installdir := installdir b;
                           toolchain := toolchain b |};
              mpi_version := d_version d;
              mpi_prefix := d_prefix d;
              mpi_envvars := d_envvars d;
              mpi_c_compiler := d_c_compiler d;
              c_compiler_version := ccv;
              orig_version := version (fix_module_names w (cfg b));
              orig_installdir := installdir b |}.
Proof.
  unfold __init__. intros H.
  apply bind_ok_inv in H as (p & Hp & H).
  apply bind_ok_inv in H as (d & Hd & H).
  apply bind_ok_inv in H as ([] & Hpre & H).
  apply bind_ok_inv in H as (ccv & Hccv & H).
  apply bind_ok_inv in H as ([] & Hv & H).
  exists p, d, ccv. inversion H; subst; clear H.
  unfold check_prefix in Hpre.
  destruct (path_exists w (d_prefix d)); [| discriminate Hpre].
  repeat split; assumption.
Qed.

Lemma append_nil_r (s : string) : s +:+ EmptyString = s.
Proof.
  induction s as [|c s IH]; [reflexivity |].
  rewrite append_cons, IH. reflexivity.
Qed.

Lemma sorted_items_empty : sorted_items ∅ = [].
Proof. unfold sorted_items. rewrite map_to_list_empty. reflexivity. Qed.

Lemma select_none (f : string -> bool) (d : gmap string string) :
  (forall k v : string, d !! k = Some v -> f k = false) -> select f d = ∅.
Proof.
  intros H. apply map_eq. intros k. rewrite lookup_empty.
  apply select_lookup_None.
  destruct (d !! k) as [v|] eqn:E; [right; apply (H k v E) | left; reflexivity].
Qed.

(** X2. For an OpenMPI easyblock that [__init__] has built, and an
    inherited [make_module_extra] that returns a text and leaves the
    recorded variables alone, the statements added to that text are those
    of the variables of the process environment whose names start with
    'OMPI_', each with its value there; without such a variable the
    inherited text is returned as it is. *)
Theorem ompi_module_extra (w : World) (b : Bundle) (self : Self)
    (set_env : string -> string -> string) (sup : method string)
    (txt : string) (s1 : Self) :
  __init__ w b = Ok self ->
  lower (name (cfg b)) = "openmpi" ->
  sup self = (Ok txt, s1) ->
  mpi_envvars s1 = mpi_envvars self ->
  fst (make_module_extra set_env sup self) =
  Ok (txt +:+ statements set_env (sorted_items (mpi_envvars self))) /\
  (forall k v : string,
     (k, v) ∈ sorted_items (mpi_envvars self) <->
     environ w !! k = Some v /\ exists t, k = "OMPI_" +:+ t) /\
  ((forall k v : string, environ w !! k = Some v -> startswith "OMPI_" k = false) ->
   fst (make_module_extra set_env sup self) = Ok txt).
Proof.
  intros Hinit Hname Hsup Hsame.
  apply init_ok_fields in Hinit as (p & d & ccv & _ & Hdet & _ & _ & _ & ->).
  rewrite Hname, detect_as_openmpi in Hdet.
  apply detect_openmpi_envvars in Hdet. cbn [mpi_envvars] in *.
  assert (Hrun : fst (make_module_extra set_env sup
                        {| bundle := {| cfg := fix_module_names w (cfg b);
                                        installdir := installdir b;
                                        toolchain := toolchain b |};
                           mpi_version := d_version d;
                           mpi_prefix := d_prefix d;
                           mpi_envvars := d_envvars d;
                           mpi_c_compiler := d_c_compiler d;
                           c_compiler_version := ccv;
                           orig_version := version (fix_module_names w (cfg b));
                           orig_installdir := installdir b |}) =
                 Ok (txt +:+ statements set_env (sorted_items (d_envvars d)))).
  { unfold make_module_extra, mbind, method_bind, read.
    rewrite Hsup. cbn. rewrite add_statements_eq, Hsame. reflexivity. }
  split; [exact Hrun | split].
  - intros k v. rewrite sorted_items_elem, Hdet, select_lookup, startswith_spec.
    reflexivity.
  - intros Hnone. rewrite Hrun, Hdet.
    rewrite (select_none _ _ Hnone), sorted_items_empty. cbn [statements foldr].
    rewrite append_nil_r. reflexivity.
Qed.

Lemma ompi_module_extra_witness :
  lower "OpenMPI" = "openmpi" /\
  exists self,
    __init__ (with_environ ompi_env ompi_world)
             (easyconfig "OpenMPI" "system" gcc_toolchain) = Ok self /\
    super_ok self = (Ok "modules/OpenMPI/system", self) /\
    fst (make_module_extra setenv super_ok self) =
    Ok ("modules/OpenMPI/system" +:+
        "setenv OMPI_CC gcc" +:+ nl +:+
        "setenv OMPI_MCA_btl self" +:+ nl +:+
        "setenv OMPI_MCA_mtl psm2" +:+ nl).
Proof.
  split; [reflexivity |].
  destruct (__init__ (with_environ ompi_env ompi_world)
              (easyconfig "OpenMPI" "system" gcc_toolchain)) as [self|e] eqn:E;
    [| vm_compute in E; discriminate E].
  assert (Hself : self = ompi_self_in ompi_env gcc_toolchain)
    by (vm_compute in E; inversion E; vm_compute; reflexivity).
  assert (Hsup : super_ok self = (Ok "modules/OpenMPI/system", self))
    by (rewrite Hself; reflexivity).
  exists self. split; [reflexivity | split; [exact Hsup |]].
  destruct (ompi_module_extra _ _ self setenv super_ok _ self E eq_refl Hsup
              eq_refl) as [Heq _].
  rewrite Heq, Hself. vm_compute. reflexivity.
Defined.

Lemma check_version_ok_inv (requested derived : string) :
  check_version requested derived = Ok tt ->
  requested = "system" \/ requested = derived.
Proof.
  unfold check_version.
  destruct (String.eqb_spec requested "system") as [E|_]; [left; exact E |].
  destruct (String.eqb_spec requested derived) as [E|_]; [right; exact E |].
  discriminate.
Qed.

Lemma detect_ok_name (w : World) (mpi_name c p : string) (d : Detected) :
  detect w mpi_name c p = Ok d -> mpi_name = "openmpi" \/ mpi_name = "impi".
Proof.
  unfold detect.
  destruct (String.eqb_spec mpi_name "openmpi") as [E|_]; [left; exact E |].
  destruct (String.eqb_spec mpi_name "impi") as [E|_]; [right; exact E |].
  discriminate.
Qed.

(** X3. Construction leaves the configuration's name and version, the
    install directory and the toolchain as they were: the derived version
    is not written into the configuration, the values kept for restoring
    are the requested version and the original install directory, and the
    full module name is the one of the naming scheme for the
    configuration with the requested version. *)
Theorem init_keeps_configuration (w : World) (b : Bundle) (self : Self) :
  __init__ w b = Ok self ->
  name (cfg self) = name (cfg b) /\
  version (cfg self) = version (cfg b) /\
  installdir self = installdir b /\
  toolchain self = toolchain b /\
  orig_version self = version (cfg b) /\
  orig_installdir self = installdir b /\
  full_mod_name (cfg self) = det_full_module_name w (cfg b).
Proof.
  intros H.
  apply init_ok_fields in H as (p & d & ccv & _ & _ & _ & _ & _ & ->).
  repeat split; reflexivity.
Qed.

Lemma init_keeps_configuration_witness :
  __init__ ompi_world (easyconfig "OpenMPI" "system" gcc_toolchain) =
  Ok (ompi_self gcc_toolchain) /\
  version (cfg (ompi_self gcc_toolchain)) = "system" /\
  orig_version (ompi_self gcc_toolchain) = "system" /\
  mpi_version (ompi_self gcc_toolchain) = "4.0.1".
Proof.
  pose proof (init_keeps_configuration ompi_world
                (easyconfig "OpenMPI" "system" gcc_toolchain)
                (ompi_self gcc_toolchain) (init_ompi_self gcc_toolchain))
    as (_ & Hv & _ & _ & Ho & _).
  split; [apply init_ompi_self |].
  split; [exact Hv | split; [exact Ho | reflexivity]].
Defined.

(** X4. An easyblock that construction returns is one of a supported
    implementation, its derived version is the requested one unless
    'system' was requested, its prefix exists, and its compiler version is
    the one that [extract_compiler_version] gives for its compiler. *)
Theorem init_invariants (w : World) (b : Bundle) (self : Self) :
  __init__ w b = Ok self ->
  (lower (name (cfg b)) = "openmpi" \/ lower (name (cfg b)) = "impi") /\
  (version (cfg b) = "system" \/ version (cfg b) = mpi_version self) /\
  path_exists w (mpi_prefix self) = true /\
  extract_compiler_version w (mpi_c_compiler self) = Ok (c_compiler_version self).
Proof.
  intros H.
  apply init_ok_fields in H as (p & d & ccv & _ & Hd & Hp & Hc & Hv & ->).
  cbn. split; [apply (detect_ok_name _ _ _ _ _ Hd) |].
  split; [apply (check_version_ok_inv _ _ Hv) |].
  split; assumption.
Qed.

Lemma init_invariants_witness :
  exists self,
    __init__ ompi_world (easyconfig "OpenMPI" "4.0.1" gcc_toolchain) = Ok self /\
    ("4.0.1" = "system" \/ "4.0.1" = mpi_version self) /\
    path_exists ompi_world (mpi_prefix self) = true.
Proof.
  destruct (__init__ ompi_world (easyconfig "OpenMPI" "4.0.1" gcc_toolchain))
    as [self|e] eqn:E; [| vm_compute in E; discriminate E].
  exists self. split; [reflexivity |].
  destruct (init_invariants _ _ _ E) as (_ & Hv & Hp & _).
  split; [exact Hv | exact Hp].
Defined.

(** X5. When the derived prefix does not exist, construction raises the
    error that names the lowercased implementation and the prefix, before
    the compiler version is asked for and whatever version was
    requested. *)
Theorem init_prefix_missing (w : World) (b : Bundle) (p : string) (d : Detected) :
  find_wrapper w (mpi_c_wrapper_for (lower (name (cfg b)))) = Ok p ->
  detect w (lower (name (cfg b))) (mpi_c_wrapper_for (lower (name (cfg b)))) p = Ok d ->
  path_exists w (d_prefix d) = false ->
  __init__ w b =
  Raise (EasyBuildError
           ("Path derived for system MPI (" +:+ lower (name (cfg b)) +:+
            ") does not exist: " +:+ d_prefix d +:+ "!")).
Proof.
  intros Hfind Hdet Hpath. unfold __init__.
  rewrite Hfind, bind_ok, Hdet, bind_ok.
  unfold check_prefix. rewrite Hpath. reflexivity.
Qed.

Lemma init_prefix_missing_witness :
  (find_wrapper (ompi_world_only "/usr") "mpicc" = Ok "/opt/ompi/bin/mpicc" /\
   detect (ompi_world_only "/usr") "openmpi" "mpicc" "/opt/ompi/bin/mpicc" =
   Ok ompi_detected /\
   path_exists (ompi_world_only "/usr") "/opt/ompi" = false) /\
  __init__ (ompi_world_only "/usr") (easyconfig "OpenMPI" "3.1.4" gcc_toolchain) =
  Raise (EasyBuildError
           "Path derived for system MPI (openmpi) does not exist: /opt/ompi!").
Proof.
  assert (H1 : find_wrapper (ompi_world_only "/usr") "mpicc" =
               Ok "/opt/ompi/bin/mpicc") by reflexivity.
  assert (H2 : detect (ompi_world_only "/usr") "openmpi" "mpicc"
                 "/opt/ompi/bin/mpicc" = Ok ompi_detected)
    by (vm_compute; reflexivity).
  assert (H3 : path_exists (ompi_world_only "/usr") "/opt/ompi" = false)
    by reflexivity.
  split; [repeat split; assumption |].
  apply (init_prefix_missing (ompi_world_only "/usr")
           (easyconfig "OpenMPI" "3.1.4" gcc_toolchain) _ ompi_detected H1 H2 H3).
Defined.

(** X6. Construction depends on the configured name through its lower
    case only: two configurations with the same requested version whose
    names are equal in lower case both fail with the same error, or both
    succeed with the same derived version, prefix, variables, compiler and
    compiler version. *)
Theorem init_ignores_case (w : World) (b1 b2 : Bundle) :
  lower (name (cfg b1)) = lower (name (cfg b2)) ->
  version (cfg b1) = version (cfg b2) ->
  match __init__ w b1, __init__ w b2 with
  | Ok s1, Ok s2 =>
      mpi_version s1 = mpi_version s2 /\ mpi_prefix s1 = mpi_prefix s2 /\
      mpi_envvars s1 = mpi_envvars s2 /\ mpi_c_compiler s1 = mpi_c_compiler s2 /\
      c_compiler_version s1 = c_compiler_version s2
  | Raise e1, Raise e2 => e1 = e2
  | _, _ => False
  end.
Proof.
  intros Hname Hver. unfold __init__. rewrite Hname, Hver.
  destruct (find_wrapper w _) as [p|e]; [| reflexivity].
  rewrite !bind_ok.
  destruct (detect w _ _ p) as [d|e]; [| reflexivity].
  rewrite !bind_ok.
  destruct (check_prefix w _ _) as [[]|e]; [| reflexivity].
  rewrite !bind_ok.
  destruct (extract_compiler_version w _) as [ccv|e]; [| reflexivity].
  rewrite !bind_ok.
  destruct (check_version _ _) as [[]|e]; [| reflexivity].
  rewrite !bind_ok. repeat split; reflexivity.
Qed.

Lemma init_ignores_case_witness :
  (lower "OpenMPI" = lower "OPENMPI") /\
  exists s2,
    __init__ ompi_world (easyconfig "OPENMPI" "system" gcc_toolchain) = Ok s2 /\
    mpi_version s2 = "4.0.1" /\ mpi_prefix s2 = "/opt/ompi".
Proof.
  split; [reflexivity |].
  pose proof (init_ignores_case ompi_world
                (easyconfig "OpenMPI" "system" gcc_toolchain)
                (easyconfig "OPENMPI" "system" gcc_toolchain)
                eq_refl eq_refl) as H.
  rewrite (init_ompi_self gcc_toolchain) in H.
  destruct (__init__ ompi_world (easyconfig "OPENMPI" "system" gcc_toolchain))
    as [s2|e]; [| destruct H].
  exists s2. destruct H as (Hv & Hp & _).
  split; [reflexivity | split; [rewrite <- Hv | rewrite <- Hp]; reflexivity].
Defined.

(** *** The module step on a constructed easyblock *)

Lemma make_module_step_real (w : World) (sup : bool -> method string)
    (fake : bool) (self : Self) (m : string) (ms : list string) :
  COMPILER_CC (toolchain self) <> "DUMMYCC" ->
  COMPILER_MODULE_NAME (toolchain self) = m :: ms ->
  COMPILER_CC (toolchain self) = mpi_c_compiler self ->
  get_software_version w m = Some (c_compiler_version self) ->
  make_module_step w sup fake self =
  match sup fake (during_module_step self) with
  | (Ok res, s1) =>
      (Ok res,
       set_version (orig_version s1) (set_installdir (orig_installdir s1) s1))
  | (Raise e, s1) => (Raise e, s1)
  end.
Proof.
  intros Hreal Hm Hname Hver. rewrite make_module_step_eq.
  rewrite (toolchain_compiler_real w self m ms Hreal Hm). cbn [fst snd].
  rewrite Hname, Hver, String.eqb_refl, str_ne_same. reflexivity.
Qed.

(** X7. With a toolchain that is not the dummy one and whose compiler
    name and version are those detected underneath the MPI, the inherited
    [make_module_step] runs on [self] with the derived MPI version as the
    version of the configuration and the derived prefix as the install
    directory, everything else as it was: whatever the inherited method
    reads from [self], it reads from that object. *)
Theorem module_step_runs_on_derived (w : World) (fake : bool) (self : Self)
    (m : string) (ms : list string) :
  COMPILER_CC (toolchain self) <> "DUMMYCC" ->
  COMPILER_MODULE_NAME (toolchain self) = m :: ms ->
  COMPILER_CC (toolchain self) = mpi_c_compiler self ->
  get_software_version w m = Some (c_compiler_version self) ->
  version (cfg (during_module_step self)) = mpi_version self /\
  installdir (during_module_step self) = mpi_prefix self /\
  name (cfg (during_module_step self)) = name (cfg self) /\
  toolchain (during_module_step self) = toolchain self /\
  mpi_envvars (during_module_step self) = mpi_envvars self /\
  (forall observe : Self -> string,
     fst (make_module_step w (fun _ => read observe) fake self) =
     Ok (observe (during_module_step self))).
Proof.
  intros Hreal Hm Hname Hver.
  do 5 (split; [reflexivity |]).
  intros observe.
  rewrite (make_module_step_real w _ fake self m ms Hreal Hm Hname Hver).
  reflexivity.
Qed.

Lemma module_step_runs_on_derived_witness :
  fst (make_module_step ompi_world (fun _ => super_sees) false
         (ompi_self gcc_toolchain)) = Ok "4.0.1 /opt/ompi".
Proof.
  destruct (module_step_runs_on_derived ompi_world false
              (ompi_self gcc_toolchain) "GCC" []
              ltac:(discriminate) eq_refl eq_refl eq_refl)
    as (_ & _ & _ & _ & _ & H).
  apply (H (fun self => version (cfg self) +:+ " " +:+ installdir self)).
Defined.

Lemma restore_constructed (self : Self) :
  version (cfg self) = orig_version self ->
  installdir self = orig_installdir self ->
  set_version (orig_version self)
    (set_installdir (orig_installdir self) (during_module_step self)) = self.
Proof.
  destruct self as [[[n v f s m] i t] mv mp me mc cv ov oi].
  cbn. intros -> ->. reflexivity.
Qed.

(** X8. On an easyblock that construction has returned, a
    [make_module_step] that returns, with an inherited method that leaves
    [self] as it finds it, returns the result of the inherited method and
    leaves the easyblock exactly as it was constructed. *)
Theorem module_step_round_trip (w0 w : World) (b : Bundle) (self : Self)
    (sup : bool -> method string) (fake : bool) (res res' : string) (s2 : Self) :
  __init__ w0 b = Ok self ->
  sup fake (during_module_step self) = (Ok res, during_module_step self) ->
  make_module_step w sup fake self = (Ok res', s2) ->
  res' = res /\ s2 = self.
Proof.
  intros Hinit Hsup Hstep.
  destruct (init_keeps_configuration _ _ _ Hinit)
    as (_ & Hv & Hi & _ & Hov & Hoi & _).
  rewrite make_module_step_eq in Hstep.
  destruct (fst (toolchain_compiler w self)) as [tc|e]; [| discriminate Hstep].
  destruct (negb _ || _); [discriminate Hstep |].
  rewrite Hsup in Hstep. inversion Hstep; subst res' s2. split; [reflexivity |].
  apply restore_constructed; congruence.
Qed.

Lemma module_step_round_trip_witness :
  __init__ ompi_world (easyconfig "OpenMPI" "system" gcc_toolchain) =
  Ok (ompi_self gcc_toolchain) /\
  make_module_step ompi_world (fun _ => super_sees) false (ompi_self gcc_toolchain) =
  (Ok "4.0.1 /opt/ompi", ompi_self gcc_toolchain).
Proof.
  split; [apply init_ompi_self |].
  destruct (make_module_step ompi_world (fun _ => super_sees) false
              (ompi_self gcc_toolchain)) as [[res'|e] s2] eqn:E;
    [| vm_compute in E; discriminate E].
  destruct (module_step_round_trip ompi_world ompi_world _ _
              (fun _ => super_sees) false "4.0.1 /opt/ompi" res' s2
              (init_ompi_self gcc_toolchain) eq_refl E) as [-> ->].
  reflexivity.
Defined.

Lemma extend_constructed (self : Self) :
  version (cfg self) = orig_version self -> during_extend_modpath self = self.
Proof.
  destruct self as [[[n v f s m] i t] mv mp me mc cv ov oi].
  cbn. intros ->. reflexivity.
Qed.

Lemma during_module_step_set_version (v : string) (self : Self) :
  during_module_step (set_version v self) = during_module_step self.
Proof. reflexivity. Qed.

(** X9. On an easyblock that construction has returned, with inherited
    methods that leave [self] as they find it:
    [make_module_extend_modpath] runs the inherited method on the
    easyblock as constructed and leaves it with the derived MPI version in
    the configuration, and a [make_module_step] that returns after that
    leaves the easyblock exactly as it was constructed. *)
Theorem extend_then_step_restores (w0 w : World) (b : Bundle) (self : Self)
    (sup_ext : method string) (sup_step : bool -> method string)
    (fake : bool) (r1 r2 res : string) (s2 : Self) :
  __init__ w0 b = Ok self ->
  sup_ext self = (Ok r1, self) ->
  sup_step fake (during_module_step self) = (Ok r2, during_module_step self) ->
  make_module_step w sup_step fake
    (snd (make_module_extend_modpath sup_ext self)) = (Ok res, s2) ->
  make_module_extend_modpath sup_ext self =
  (Ok r1, set_version (mpi_version self) self) /\
  res = r2 /\ s2 = self.
Proof.
  intros Hinit Hext Hsup Hstep.
  destruct (init_keeps_configuration _ _ _ Hinit)
    as (_ & Hv & Hi & _ & Hov & Hoi & _).
  assert (Hvo : version (cfg self) = orig_version self) by congruence.
  assert (Heq : make_module_extend_modpath sup_ext self =
                (Ok r1, set_version (mpi_version self) self)).
  { rewrite make_module_extend_modpath_eq, (extend_constructed self Hvo), Hext.
    reflexivity. }
  split; [exact Heq |].
  rewrite Heq in Hstep. cbn [snd] in Hstep.
  rewrite make_module_step_eq in Hstep.
  destruct (fst (toolchain_compiler w _)) as [tc|e]; [| discriminate Hstep].
  destruct (negb _ || _); [discriminate Hstep |].
  rewrite during_module_step_set_version, Hsup in Hstep.
  inversion Hstep; subst res s2. split; [reflexivity |].
  apply restore_constructed; congruence.
Qed.

Lemma extend_then_step_restores_witness :
  make_module_extend_modpath super_ok (ompi_self gcc_toolchain) =
  (Ok "modules/OpenMPI/system", set_version "4.0.1" (ompi_self gcc_toolchain)) /\
  make_module_step ompi_world (fun _ => super_sees) false
    (snd (make_module_extend_modpath super_ok (ompi_self gcc_toolchain))) =
  (Ok "4.0.1 /opt/ompi", ompi_self gcc_toolchain).
Proof.
  destruct (make_module_step ompi_world (fun _ => super_sees) false
              (snd (make_module_extend_modpath super_ok (ompi_self gcc_toolchain))))
    as [[res|e] s2] eqn:E; [| vm_compute in E; discriminate E].
  destruct (extend_then_step_restores ompi_world ompi_world _ _
              super_ok (fun _ => super_sees) false
              "modules/OpenMPI/system" "4.0.1 /opt/ompi" res s2
              (init_ompi_self gcc_toolchain) eq_refl eq_refl E)
    as (Hext & -> & ->).
  split; [exact Hext | reflexivity].
Defined.

(** X11. With a toolchain that is not the dummy one and names no
    compiler module, [make_module_step] raises the IndexError of the
    empty list, before the compilers are compared, with [self] untouched
    and the inherited method not called. *)
Theorem module_step_without_compiler_module (w : World)
    (sup : bool -> method string) (fake : bool) (self : Self) :
  COMPILER_CC (toolchain self) <> "DUMMYCC" ->
  COMPILER_MODULE_NAME (toolchain self) = [] ->
  make_module_step w sup fake self =
  (Raise (IndexError "list index out of range"), self).
Proof.
  intros Hreal Hnil. rewrite make_module_step_eq.
  unfold toolchain_compiler, mbind, method_bind, read.
  apply String.eqb_neq in Hreal. rewrite Hreal, Hnil. reflexivity.
Qed.

Lemma module_step_without_compiler_module_witness :
  make_module_step ompi_world (fun _ => super_ok) false
    (ompi_self {| COMPILER_CC := "gcc"; COMPILER_MODULE_NAME := [] |}) =
  (Raise (IndexError "list index out of range"),
   ompi_self {| COMPILER_CC := "gcc"; COMPILER_MODULE_NAME := [] |}).
Proof.
  apply module_step_without_compiler_module; [discriminate | reflexivity].
Defined.

(** *** What a successful search has found *)

Lemma strip_prefix_inv (lit s r : string) :
  strip_prefix lit s = Some r -> s = lit +:+ r.
Proof.
  revert s. induction lit as [|c lit IH]; intros s H.
  - inversion H. reflexivity.
  - destruct s as [|b s]; [discriminate H |]. cbn [strip_prefix] in H.
    destruct (Ascii.eqb_spec c b) as [->|]; [| discriminate H].
    rewrite append_cons, <- (IH s H). reflexivity.
Qed.

Lemma spaces_then_inv (lit s r : string) :
  spaces_then lit s = Some r ->
  exists ws, s = ws +:+ lit +:+ r /\ ws <> EmptyString /\ all_spaces ws = true.
Proof.
  induction s as [|c s IH]; intros H; [discriminate H |].
  cbn [spaces_then] in H. destruct (is_space c) eqn:Hc; [| discriminate H].
  destruct (spaces_then lit s) as [r'|].
  - destruct (IH H) as (ws & -> & _ & Hws). exists (String c ws).
    split; [reflexivity | split; [discriminate |]].
    cbn [all_spaces]. rewrite Hc, Hws. reflexivity.
  - apply strip_prefix_inv in H as ->. exists (String c EmptyString).
    split; [reflexivity | split; [discriminate |]].
    cbn [all_spaces]. rewrite Hc. reflexivity.
Qed.

Lemma line_rest_no_newline (s : string) : has_char newline (line_rest s) = false.
Proof.
  induction s as [|c s IH]; [reflexivity |]. cbn [line_rest].
  destruct (Ascii.eqb c newline) eqn:E; [reflexivity |].
  cbn [has_char]. rewrite Ascii.eqb_sym, E, IH. reflexivity.
Qed.

Lemma line_rest_split (s : string) :
  exists post, s = line_rest s +:+ post /\ line_end post.
Proof.
  induction s as [|c s (post & IH & Hpost)].
  - exists EmptyString. split; [reflexivity | left; reflexivity].
  - cbn [line_rest]. destruct (Ascii.eqb_spec c newline) as [->|_].
    + exists (String newline s). split; [reflexivity |].
      right. exists s. reflexivity.
    + exists post. rewrite append_cons, <- IH. split; [reflexivity | exact Hpost].
Qed.

Lemma search_setting_inv (lit : string) (s g : string) (bol : bool)
    (before : string) :
  (bol = true -> line_start before) ->
  search_setting lit bol s = Some g ->
  exists pre ws r,
    s = pre +:+ ws +:+ lit +:+ r /\ g = line_rest r /\
    ws <> EmptyString /\ all_spaces ws = true /\
    line_start (before +:+ pre).
Proof.
  revert bol before. induction s as [|c s IH]; intros bol before Hbol;
    rewrite search_setting_eq.
  - destruct bol; discriminate.
  - destruct (if bol then spaces_then lit (String c s) else None) as [r|] eqn:E.
    + intros H. inversion H; subst g. destruct bol; [| discriminate E].
      apply spaces_then_inv in E as (ws & Hs & Hne & Hws).
      exists EmptyString, ws, r. rewrite append_nil_r.
      repeat split; auto.
    + intros H.
      destruct (IH (Ascii.eqb c newline) (before +:+ String c EmptyString))
        as (pre & ws & r & -> & Hg & Hne & Hws & Hstart).
      * intros Hc. apply Ascii.eqb_eq in Hc. subst c.
        right. exists before. reflexivity.
      * exact H.
      * exists (String c pre), ws, r. rewrite append_assoc in Hstart.
        repeat split; auto.
Qed.

Lemma extract_ompi_setting_line (label txt value : string) :
  extract_ompi_setting label txt = Ok value -> setting_line label value txt.
Proof.
  unfold extract_ompi_setting. intros H.
  destruct (search_setting (label +:+ ": ") true txt) as [g|] eqn:E;
    [| discriminate H].
  inversion H; subst g; clear H.
  destruct (search_setting_inv _ _ _ true EmptyString
              (fun _ => or_introl eq_refl) E)
    as (pre & ws & r & -> & Hg & Hne & Hws & Hstart).
  destruct (line_rest_split r) as (post & Hr & Hpost).
  exists pre, ws, post. unfold setting_line_at.
  rewrite Hg, <- Hr. rewrite append_nil in Hstart.
  repeat split; auto. apply line_rest_no_newline.
Qed.



(** *** Reversal *)

Lemma rev_app_eq (s acc : string) :
  String.rev_app s acc = String.rev s +:+ acc.
Proof.
  unfold String.rev. revert acc.
  induction s as [|c s IH]; intros acc; [reflexivity |].
  cbn [String.rev_app]. rewrite (IH (String c acc)), (IH (String c EmptyString)).
  rewrite append_assoc. reflexivity.
Qed.

Lemma rev_append (a b : string) :
  String.rev (a +:+ b) = String.rev b +:+ String.rev a.
Proof.
  induction a as [|c a IH].
  - rewrite append_nil, append_nil_r. reflexivity.
  - rewrite append_cons. unfold String.rev at 1 3. cbn [String.rev_app].
    rewrite !rev_app_eq, IH, append_assoc. reflexivity.
Qed.

Lemma rev_involutive (s : string) : String.rev (String.rev s) = s.
Proof.
  induction s as [|c s IH]; [reflexivity |].
  unfold String.rev at 2. cbn [String.rev_app].
  rewrite rev_app_eq, rev_append, IH. reflexivity.
Qed.

Lemma has_char_rev (c : ascii) (s : string) :
  has_char c (String.rev s) = has_char c s.
Proof.
  induction s as [|b s IH]; [reflexivity |].
  unfold String.rev. cbn [String.rev_app].
  rewrite rev_app_eq, has_char_app, IH. cbn [has_char].
  rewrite orb_false_r, orb_comm. reflexivity.
Qed.

(** [before] ends with [lb] when its reversal starts with the reversal of
    [lb]. *)
Lemma lookbehind_spec (lb before : string) :
  startswith (String.rev lb) (String.rev before) = true ->
  exists x, before = x +:+ lb.
Proof.
  intros H. apply startswith_spec in H as [t Ht].
  exists (String.rev t).
  rewrite <- (rev_involutive before), Ht, rev_append, rev_involutive.
  reflexivity.
Qed.

Lemma contains_app (m pre rest : string) :
  contains m (pre +:+ m +:+ rest) = true.
Proof.
  induction pre as [|c pre IH].
  - rewrite append_nil. apply contains_of_startswith.
    apply startswith_spec. exists rest. reflexivity.
  - rewrite append_cons. cbn [contains]. rewrite IH. apply orb_true_r.
Qed.

(** *** The search for the Intel MPI version *)

Lemma search_between_eq (lb_rev la before_rev s : string) :
  search_between lb_rev la before_rev s =
  match (if startswith lb_rev before_rev then greedy_until la s else None) with
  | Some g => Some g
  | None =>
      match s with
      | EmptyString => None
      | String c s' => search_between lb_rev la (String c before_rev) s'
      end
  end.
Proof. destruct s; reflexivity. Qed.

Lemma greedy_until_inv (la s g : string) :
  greedy_until la s = Some g ->
  has_char newline g = false /\ exists post, s = g +:+ la +:+ post.
Proof.
  revert g. induction s as [|c s IH]; intros g H.
  - cbn [greedy_until] in H.
    destruct (startswith la EmptyString) eqn:E; [| discriminate H].
    inversion H; subst g. split; [reflexivity |].
    apply startswith_spec in E. exact E.
  - cbn [greedy_until] in H.
    assert (Hhere : (if startswith la (String c s) then Some EmptyString else None)
                    = Some g ->
                    has_char newline g = false /\
                    exists post, String c s = g +:+ la +:+ post).
    { destruct (startswith la (String c s)) eqn:E; [| discriminate].
      intros H'. inversion H'; subst g. split; [reflexivity |].
      apply startswith_spec in E. exact E. }
    destruct (Ascii.eqb c newline) eqn:Hc; [apply Hhere, H |].
    destruct (greedy_until la s) as [g'|]; [| apply Hhere, H].
    inversion H; subst g. destruct (IH g' eq_refl) as (Hg' & post & ->).
    split.
    + cbn [has_char]. rewrite Ascii.eqb_sym, Hc, Hg'. reflexivity.
    + exists post. reflexivity.
Qed.

Lemma greedy_until_some (la value post : string) :
  has_char newline value = false ->
  exists g, greedy_until la (value +:+ la +:+ post) = Some g.
Proof.
  intros Hv. induction value as [|c value IH].
  - rewrite append_nil.
    assert (Hs : startswith la (la +:+ post) = true)
      by (apply startswith_spec; exists post; reflexivity).
    destruct (la +:+ post) as [|c s]; cbn [greedy_until]; rewrite Hs.
    + eexists. reflexivity.
    + destruct (Ascii.eqb c newline); [eexists; reflexivity |].
      destruct (greedy_until la s); eexists; reflexivity.
  - cbn [has_char] in Hv. apply orb_false_iff in Hv as [Hc Hv].
    destruct (IH Hv) as [g Hg].
    rewrite append_cons. cbn [greedy_until].
    rewrite Ascii.eqb_sym, Hc, Hg. eexists. reflexivity.
Qed.

Lemma search_between_inv (lb_rev la s g before_rev : string) :
  search_between lb_rev la before_rev s = Some g ->
  exists a post,
    s = a +:+ g +:+ la +:+ post /\
    startswith lb_rev (String.rev_app a before_rev) = true /\
    has_char newline g = false.
Proof.
  revert before_rev. induction s as [|c s IH]; intros before_rev;
    rewrite search_between_eq.
  - destruct (startswith lb_rev before_rev) eqn:E; [| discriminate].
    destruct (greedy_until la EmptyString) as [g'|] eqn:G; [| discriminate].
    intros H. inversion H; subst g'.
    destruct (greedy_until_inv _ _ _ G) as (Hg & post & Hs).
    exists EmptyString, post. auto.
  - destruct (if startswith lb_rev before_rev
              then greedy_until la (String c s) else None) as [g'|] eqn:G.
    + intros H. inversion H; subst g'.
      destruct (startswith lb_rev before_rev) eqn:E; [| discriminate G].
      destruct (greedy_until_inv _ _ _ G) as (Hg & post & Hs).
      exists EmptyString, post. auto.
    + intros H. destruct (IH _ H) as (a & post & -> & Hlb & Hg).
      exists (String c a), post. auto.
Qed.

Lemma search_between_some (lb_rev la a t g0 before_rev : string) :
  startswith lb_rev (String.rev_app a before_rev) = true ->
  greedy_until la t = Some g0 ->
  exists g, search_between lb_rev la before_rev (a +:+ t) = Some g.
Proof.
  intros Hlb Hg. revert before_rev Hlb.
  induction a as [|c a IH]; intros before_rev Hlb; rewrite search_between_eq.
  - cbn [String.rev_app] in Hlb. rewrite append_nil, Hlb, Hg.
    eexists. reflexivity.
  - destruct (if startswith lb_rev before_rev
              then greedy_until la (String c a +:+ t) else None) as [g|].
    + eexists. reflexivity.
    + rewrite append_cons. apply IH. exact Hlb.
Qed.

Lemma prefix_regex_search_sound (contents g : string) :
  prefix_regex_search contents = Some (Some g) ->
  has_char newline g = false /\
  exists pre post,
    contents = pre +:+ "compilers_and_libraries_" +:+ g +:+
               "/linux/mpi" +:+ post.
Proof.
  intros H. unfold prefix_regex_search in H.
  destruct (search_between _ _ _ contents) as [g'|] eqn:E; [| discriminate H].
  inversion H; subst g'.
  apply search_between_inv in E as (a & post & -> & Hlb & Hg).
  split; [exact Hg |].
  apply lookbehind_spec in Hlb as [x ->].
  exists x, post. rewrite append_assoc. reflexivity.
Qed.

(** X13. The search for the Intel MPI version in the text of the wrapper
    succeeds exactly when the text has, somewhere, the marker
    'compilers_and_libraries_' and after it, with no newline between the
    two, '/linux/mpi'; the version found has no newline and stands in the
    text between that marker and '/linux/mpi'; and a text without the
    marker has no match. *)
Theorem impi_version_search (contents : string) :
  (forall g : string,
     prefix_regex_search contents = Some (Some g) ->
     has_char newline g = false /\
     exists pre post,
       contents = pre +:+ "compilers_and_libraries_" +:+ g +:+
                  "/linux/mpi" +:+ post) /\
  (forall pre value post : string,
     contents = pre +:+ "compilers_and_libraries_" +:+ value +:+
                "/linux/mpi" +:+ post ->
     has_char newline value = false ->
     exists g, prefix_regex_search contents = Some (Some g)) /\
  (contains "compilers_and_libraries_" contents = false ->
   prefix_regex_search contents = None).
Proof.
  pose proof (prefix_regex_search_sound contents) as Hsound.
  split; [exact Hsound | split].
  - intros pre value post -> Hv. unfold prefix_regex_search.
    destruct (greedy_until_some "/linux/mpi" value post Hv) as [g0 Hg0].
    destruct (search_between_some (String.rev "compilers_and_libraries_")
                "/linux/mpi" (pre +:+ "compilers_and_libraries_")
                (value +:+ "/linux/mpi" +:+ post) g0 EmptyString) as [g Hg].
    + rewrite rev_app_eq, append_nil_r, rev_append.
      apply startswith_spec. eexists. reflexivity.
    + exact Hg0.
    + rewrite append_assoc in Hg. rewrite Hg. exists g. reflexivity.
  - intros Hno. destruct (prefix_regex_search contents) as [[g|]|] eqn:E.
    + destruct (Hsound g eq_refl) as (_ & pre & post & Hc).
      rewrite Hc, contains_app in Hno. discriminate Hno.
    + unfold prefix_regex_search in E.
      destruct (search_between _ _ _ contents); discriminate E.
    + reflexivity.
Qed.

Lemma impi_version_search_witness :
  prefix_regex_search mpiicc_script = Some (Some "2017.1.132") /\
  has_char newline "2017.1.132" = false /\
  (exists pre post,
     mpiicc_script = pre +:+ "compilers_and_libraries_" +:+ "2017.1.132" +:+
                     "/linux/mpi" +:+ post) /\
  prefix_regex_search "#!/bin/sh" = None.
Proof.
  assert (H : prefix_regex_search mpiicc_script = Some (Some "2017.1.132"))
    by (vm_compute; reflexivity).
  destruct (proj1 (impi_version_search mpiicc_script) _ H) as [Hn Hex].
  split; [exact H | split; [exact Hn | split; [exact Hex |]]].
  apply (proj2 (proj2 (impi_version_search "#!/bin/sh"))). reflexivity.
Defined.

(** *** Intel MPI: the prefix and the compiler *)

Lemma drop_to_slash_app (a r : string) :
  has_char slash a = false ->
  drop_to_slash (a +:+ String slash r) = String slash r.
Proof.
  intros Ha. induction a as [|c a IH]; [reflexivity |].
  cbn [has_char] in Ha. apply orb_false_iff in Ha as [Hc Ha].
  rewrite append_cons. cbn [drop_to_slash].
  rewrite Ascii.eqb_sym, Hc. apply IH, Ha.
Qed.

(** [os.path.dirname] of a directory, a slash and a name. *)
Lemma dirname_join (d f : string) :
  ends_plain d -> has_char slash f = false ->
  dirname (d +:+ "/" +:+ f) = d.
Proof.
  intros (d0 & c & Hd & Hc) Hf. unfold dirname.
  assert (Hrev : String.rev (d +:+ "/" +:+ f) =
                 String.rev f +:+ String slash (String c (String.rev d0))).
  { rewrite Hd, !rev_append, append_assoc. reflexivity. }
  rewrite Hrev, drop_to_slash_app by (rewrite has_char_rev; exact Hf).
  apply Ascii.eqb_neq in Hc. cbn [all_slashes drop_slashes].
  rewrite Hc, Ascii.eqb_refl. cbn [andb].
  change (String c (String.rev d0))
    with (String.rev (String c EmptyString) +:+ String.rev d0).
  rewrite <- rev_append, rev_involutive. symmetry. exact Hd.
Qed.

Lemma last_char (b : string) :
  b <> EmptyString -> exists b0 c, b = b0 +:+ String c EmptyString.
Proof.
  induction b as [|x b IH]; [congruence |]. intros _.
  destruct b as [|y b].
  - exists EmptyString, x. reflexivity.
  - destruct IH as (b0 & c & Hb); [discriminate |].
    exists (String x b0), c. rewrite append_cons, <- Hb. reflexivity.
Qed.

Lemma join_ends_plain (d b : string) : component b -> ends_plain (d +:+ "/" +:+ b).
Proof.
  intros [Hne Hb]. destruct (last_char b Hne) as (b0 & c & ->).
  exists (d +:+ "/" +:+ b0), c. split.
  - rewrite !append_assoc. reflexivity.
  - rewrite has_char_app in Hb. apply orb_false_iff in Hb as [_ Hc].
    cbn [has_char] in Hc. rewrite orb_false_r in Hc.
    apply Ascii.eqb_neq in Hc. congruence.
Qed.

Lemma detect_impi_fields (w : World) (c p : string) (d : Detected) :
  detect_impi w c p = Ok d ->
  d_prefix d =
  (if truthy (environ w !! "I_MPI_ROOT")
   then py_str (environ w !! "I_MPI_ROOT")
   else dirname (dirname (dirname p))) /\
  exists info, run_cmd w (c +:+ " -compile-info") = Ok info /\
               d_c_compiler d = split_first_blank info.
Proof.
  unfold detect_impi. intros H.
  apply bind_ok_inv in H as (contents & _ & H).
  apply bind_ok_inv in H as (found & _ & H).
  apply bind_ok_inv in H as (ver & _ & H).
  apply bind_ok_inv in H as (info & Hinfo & H).
  inversion H. split; [reflexivity |].
  exists info. split; [exact Hinfo | reflexivity].
Qed.

(** X14. The prefix of a detected Intel MPI is the value of I_MPI_ROOT
    when the process environment has that variable with a value that is
    not empty; otherwise, for a wrapper at root/a/b/name, it is root, the
    directory three levels up. *)
Theorem impi_prefix_rule (w : World) (c p : string) (d : Detected) :
  detect_impi w c p = Ok d ->
  (forall r : string,
     environ w !! "I_MPI_ROOT" = Some r -> r <> EmptyString -> d_prefix d = r) /\
  (environ w !! "I_MPI_ROOT" = None \/ environ w !! "I_MPI_ROOT" = Some EmptyString ->
   forall root a b f : string,
     p = root +:+ "/" +:+ a +:+ "/" +:+ b +:+ "/" +:+ f ->
     ends_plain root -> component a -> component b -> has_char slash f = false ->
     d_prefix d = root).
Proof.
  intros H. apply detect_impi_fields in H as [Hp _]. rewrite Hp. split.
  - intros r Hr Hne. rewrite Hr. cbn.
    apply String.eqb_neq in Hne. rewrite Hne. reflexivity.
  - intros Hunset root a b f -> Hroot Ha Hb Hf.
    assert (Hfalse : truthy (environ w !! "I_MPI_ROOT") = false)
      by (destruct Hunset as [-> | ->]; reflexivity).
    rewrite Hfalse.
    assert (E1 : root +:+ "/" +:+ a +:+ "/" +:+ b +:+ "/" +:+ f =
                 (root +:+ "/" +:+ a +:+ "/" +:+ b) +:+ "/" +:+ f)
      by (rewrite !append_assoc; reflexivity).
    assert (E2 : root +:+ "/" +:+ a +:+ "/" +:+ b =
                 (root +:+ "/" +:+ a) +:+ "/" +:+ b)
      by (rewrite !append_assoc; reflexivity).
    rewrite E1, dirname_join; [| rewrite E2; apply join_ends_plain, Hb | exact Hf].
    rewrite E2, dirname_join; [| apply join_ends_plain, Ha | apply Hb].
    apply dirname_join; [exact Hroot | apply Ha].
Qed.

Lemma impi_prefix_rule_witness :
  (exists d,
     detect_impi (impi_world_env impi_env) "mpiicc" impi_wrapper_path = Ok d /\
     d_prefix d = "/opt/intel/impi/2018.1.163") /\
  (exists d,
     detect_impi (impi_world_env env) "mpiicc" impi_wrapper_path = Ok d /\
     d_prefix d = "/opt/intel/impi/2018.1.163").
Proof.
  split.
  - destruct (detect_impi (impi_world_env impi_env) "mpiicc" impi_wrapper_path)
      as [d|e] eqn:E; [| vm_compute in E; discriminate E].
    exists d. split; [reflexivity |].
    apply (proj1 (impi_prefix_rule _ _ _ _ E)); [reflexivity | discriminate].
  - destruct (detect_impi (impi_world_env env) "mpiicc" impi_wrapper_path)
      as [d|e] eqn:E; [| vm_compute in E; discriminate E].
    exists d. split; [reflexivity |].
    apply (proj2 (impi_prefix_rule _ _ _ _ E) (or_introl eq_refl)
             "/opt/intel/impi/2018.1.163" "intel64" "bin" "mpiicc").
    + reflexivity.
    + exists "/opt/intel/impi/2018.1.16", "3"%char.
      split; [reflexivity | discriminate].
    + split; [discriminate | reflexivity].
    + split; [discriminate | reflexivity].
    + reflexivity.
Defined.

Lemma split_first_blank_spec (s : string) :
  has_char blank (split_first_blank s) = false /\
  exists rest, s = split_first_blank s +:+ rest /\
               (rest = EmptyString \/ exists r, rest = String blank r).
Proof.
  induction s as [|c s (Hno & rest & Hs & Hrest)].
  - split; [reflexivity |]. exists EmptyString.
    split; [reflexivity | left; reflexivity].
  - cbn [split_first_blank]. destruct (Ascii.eqb_spec c blank) as [->|Hc].
    + split; [reflexivity |]. exists (String blank s).
      split; [reflexivity | right; exists s; reflexivity].
    + split.
      * cbn [has_char]. apply Ascii.eqb_neq in Hc.
        rewrite Ascii.eqb_sym, Hc, Hno. reflexivity.
      * exists rest. rewrite append_cons, <- Hs. split; [reflexivity | exact Hrest].
Qed.

Lemma split_first_blank_whole (s : string) :
  has_char blank s = false -> split_first_blank s = s.
Proof.
  induction s as [|c s IH]; [reflexivity |]. cbn [has_char split_first_blank].
  intros H. apply orb_false_iff in H as [Hc Hs].
  rewrite Ascii.eqb_sym, Hc, (IH Hs). reflexivity.
Qed.

(** X15. The C compiler recorded for a detected Intel MPI is the output
    of '<wrapper> -compile-info' up to its first blank: it has no blank,
    the output is that name followed by nothing or by a blank and more,
    and an output without any blank is the name as a whole, tabs and
    newlines included. *)
Theorem impi_compiler_name (w : World) (c p : string) (d : Detected) :
  detect_impi w c p = Ok d ->
  exists info,
    run_cmd w (c +:+ " -compile-info") = Ok info /\
    has_char blank (d_c_compiler d) = false /\
    (exists rest, info = d_c_compiler d +:+ rest /\
                  (rest = EmptyString \/ exists r, rest = String blank r)) /\
    (has_char blank info = false -> d_c_compiler d = info).
Proof.
  intros H. apply detect_impi_fields in H as (_ & info & Hinfo & ->).
  exists info. destruct (split_first_blank_spec info) as [Hno Hrest].
  split; [exact Hinfo | split; [exact Hno | split; [exact Hrest |]]].
  apply split_first_blank_whole.
Qed.

Lemma impi_compiler_name_witness :
  exists d,
    detect_impi impi_world "mpiicc" mpiicc_path = Ok d /\
    run_cmd impi_world "mpiicc -compile-info" = Ok "icc -I/opt/intel/include" /\
    d_c_compiler d = "icc" /\
    has_char blank (d_c_compiler d) = false.
Proof.
  destruct (detect_impi impi_world "mpiicc" mpiicc_path) as [d|e] eqn:E;
    [| vm_compute in E; discriminate E].
  exists d. split; [reflexivity | split; [reflexivity |]].
  destruct (impi_compiler_name _ _ _ _ E) as (info & _ & Hno & _ & _).
  split; [| exact Hno].
  vm_compute in E. inversion E. reflexivity.
Defined.

(** *** More on constructed easyblocks *)

Lemma set_version_same (self : Self) (v : string) :
  set_version v self = self <-> version (cfg self) = v.
Proof.
  split.
  - intros H. rewrite <- H at 1. reflexivity.
  - destruct self as [[[n v0 f s m] i t] mv mp me mc cv ov oi].
    cbn. intros ->. reflexivity.
Qed.

(** X16. On an easyblock that construction has returned, with an
    inherited method that leaves [self] as it finds it,
    [make_module_extend_modpath] returns the inherited result, and it
    leaves the easyblock as it was exactly when the requested version is
    the derived one; with 'system' requested for another derived version
    the easyblock is changed. *)
Theorem extend_modpath_round_trip (w : World) (b : Bundle) (self : Self)
    (sup : method string) (r : string) :
  __init__ w b = Ok self ->
  sup self = (Ok r, self) ->
  fst (make_module_extend_modpath sup self) = Ok r /\
  (snd (make_module_extend_modpath sup self) = self <->
   version (cfg b) = mpi_version self).
Proof.
  intros Hinit Hsup.
  destruct (init_keeps_configuration _ _ _ Hinit)
    as (_ & Hv & _ & _ & Hov & _).
  rewrite make_module_extend_modpath_eq.
  rewrite (extend_constructed self) by congruence.
  rewrite Hsup. cbn [fst snd]. split; [reflexivity |].
  rewrite set_version_same, Hv. reflexivity.
Qed.

Lemma extend_modpath_round_trip_witness :
  exists self,
    __init__ ompi_world (easyconfig "OpenMPI" "4.0.1" gcc_toolchain) = Ok self /\
    super_ok self = (Ok "modules/OpenMPI/4.0.1", self) /\
    make_module_extend_modpath super_ok self = (Ok "modules/OpenMPI/4.0.1", self).
Proof.
  destruct (__init__ ompi_world (easyconfig "OpenMPI" "4.0.1" gcc_toolchain))
    as [self|e] eqn:E; [| vm_compute in E; discriminate E].
  assert (Hsup : super_ok self = (Ok "modules/OpenMPI/4.0.1", self))
    by (vm_compute in E; inversion E; reflexivity).
  assert (Hver : "4.0.1" = mpi_version self)
    by (vm_compute in E; inversion E; reflexivity).
  exists self. split; [reflexivity | split; [exact Hsup |]].
  destruct (extend_modpath_round_trip _ _ _ super_ok _ E Hsup) as [Hres Hst].
  apply Hst in Hver.
  destruct (make_module_extend_modpath super_ok self) as [res s2].
  cbn [fst snd] in *. congruence.
Defined.

Lemma find_wrapper_ok_inv (w : World) (c p : string) :
  find_wrapper w c = Ok p -> exists p0, which w c = Some p0 /\ p = realpath w p0.
Proof.
  unfold find_wrapper. destruct (which w c) as [p0|]; [| discriminate].
  destruct (truthy (Some p0)); [| discriminate].
  intros H. inversion H. exists p0. split; reflexivity.
Qed.

Lemma detect_openmpi_inv (w : World) (d : Detected) :
  detect_openmpi w = Ok d ->
  exists txt,
    run_cmd w "ompi_info" = Ok txt /\
    extract_ompi_setting "Open MPI" txt = Ok (d_version d) /\
    extract_ompi_setting "Prefix" txt = Ok (d_prefix d) /\
    extract_ompi_setting "C compiler" txt = Ok (d_c_compiler d).
Proof.
  unfold detect_openmpi. intros H.
  apply bind_ok_inv in H as (txt & Htxt & H).
  apply bind_ok_inv in H as (ver & Hver & H).
  apply bind_ok_inv in H as (prefix & Hprefix & H).
  apply bind_ok_inv in H as (cc & Hcc & H).
  inversion H. exists txt. cbn. auto.
Qed.

Lemma detect_impi_inv (w : World) (c p : string) (d : Detected) :
  detect_impi w c p = Ok d ->
  exists contents,
    read_file w p = Ok contents /\
    prefix_regex_search contents = Some (Some (d_version d)).
Proof.
  unfold detect_impi. intros H.
  apply bind_ok_inv in H as (contents & Hread & H).
  apply bind_ok_inv in H as (found & Hfound & H).
  apply bind_ok_inv in H as (ver & Hver & H).
  apply bind_ok_inv in H as (info & _ & H).
  inversion H. exists contents. split; [exact Hread |]. cbn.
  destruct (prefix_regex_search contents) as [g|]; [| discriminate Hfound].
  inversion Hfound; subst found.
  destruct g as [v|]; [| discriminate Hver].
  inversion Hver. reflexivity.
Qed.

(** X17. What a constructed easyblock records is read off its sources:
    for OpenMPI the version, the prefix and the compiler each stand on a
    line of the output of 'ompi_info' behind their label; for Intel MPI
    the version has no newline and stands between
    'compilers_and_libraries_' and '/linux/mpi' in the text of the
    'mpiicc' that was found, read at its real path. *)
Theorem init_values_from_sources (w : World) (b : Bundle) (self : Self) :
  __init__ w b = Ok self ->
  (lower (name (cfg b)) = "openmpi" ->
   exists txt,
     run_cmd w "ompi_info" = Ok txt /\
     setting_line "Open MPI" (mpi_version self) txt /\
     setting_line "Prefix" (mpi_prefix self) txt /\
     setting_line "C compiler" (mpi_c_compiler self) txt) /\
  (lower (name (cfg b)) = "impi" ->
   exists p0 contents pre post,
     which w "mpiicc" = Some p0 /\
     read_file w (realpath w p0) = Ok contents /\
     has_char newline (mpi_version self) = false /\
     contents = pre +:+ "compilers_and_libraries_" +:+ mpi_version self +:+
                "/linux/mpi" +:+ post).
Proof.
  intros H.
  apply init_ok_fields in H as (p & d & ccv & Hfind & Hdet & _ & _ & _ & ->).
  cbn [mpi_version mpi_prefix mpi_c_compiler].
  split; intros Hname; rewrite Hname in Hfind, Hdet.
  - rewrite detect_as_openmpi in Hdet.
    apply detect_openmpi_inv in Hdet as (txt & Htxt & Hv & Hp & Hc).
    exists txt. split; [exact Htxt |].
    repeat split; apply extract_ompi_setting_line; assumption.
  - rewrite wrapper_for_impi in Hfind, Hdet. rewrite detect_as_impi in Hdet.
    apply find_wrapper_ok_inv in Hfind as (p0 & Hwhich & ->).
    apply detect_impi_inv in Hdet as (contents & Hread & Hsearch).
    destruct (prefix_regex_search_sound _ _ Hsearch) as (Hno & pre & post & Hc).
    exists p0, contents, pre, post. auto.
Qed.

Lemma init_values_from_sources_witness :
  exists self,
    __init__ impi_world (easyconfig "impi" "system" gcc_toolchain) = Ok self /\
    mpi_version self = "2017.1.132" /\
    exists p0 contents pre post,
      which impi_world "mpiicc" = Some p0 /\
      read_file impi_world (realpath impi_world p0) = Ok contents /\
      has_char newline (mpi_version self) = false /\
      contents = pre +:+ "compilers_and_libraries_" +:+ mpi_version self +:+
                 "/linux/mpi" +:+ post.
Proof.
  destruct (__init__ impi_world (easyconfig "impi" "system" gcc_toolchain))
    as [self|e] eqn:E; [| vm_compute in E; discriminate E].
  exists self. split; [reflexivity | split].
  - vm_compute in E. inversion E. reflexivity.
  - apply (proj2 (init_values_from_sources _ _ _ E)). reflexivity.
Defined.

(** X10. When, with matching compilers, the inherited [make_module_step]
    raises, [make_module_step] raises the same exception and sets nothing
    back: if the inherited method left [self] as it found it, the
    configuration is left with the derived MPI version and the easyblock
    with the derived prefix as install directory; in the same way an
    exception of the inherited [make_module_extend_modpath] is passed on
    with [self] as that method left it. *)
Theorem failed_super_leaves_substitution (w : World)
    (sup : bool -> method string) (sup_ext : method string) (fake : bool)
    (self : Self) (m : string) (ms : list string) (e : exn) :
  COMPILER_CC (toolchain self) <> "DUMMYCC" ->
  COMPILER_MODULE_NAME (toolchain self) = m :: ms ->
  COMPILER_CC (toolchain self) = mpi_c_compiler self ->
  get_software_version w m = Some (c_compiler_version self) ->
  (sup fake (during_module_step self) = (Raise e, during_module_step self) ->
   make_module_step w sup fake self = (Raise e, during_module_step self) /\
   version (cfg (snd (make_module_step w sup fake self))) = mpi_version self /\
   installdir (snd (make_module_step w sup fake self)) = mpi_prefix self) /\
  (forall s1 : Self,
     sup_ext (during_extend_modpath self) = (Raise e, s1) ->
     make_module_extend_modpath sup_ext self = (Raise e, s1)).
Proof.
  intros Hreal Hm Hname Hver. split.
  - intros Hsup.
    rewrite (make_module_step_real w sup fake self m ms Hreal Hm Hname Hver), Hsup.
    repeat split; reflexivity.
  - intros s1 Hsup. rewrite make_module_extend_modpath_eq, Hsup. reflexivity.
Qed.

Lemma failed_super_leaves_substitution_witness :
  make_module_step ompi_world (fun _ => super_fails) false (ompi_self gcc_toolchain) =
  (Raise (EasyBuildError "Failed to write module file"),
   during_module_step (ompi_self gcc_toolchain)) /\
  version (cfg (snd (make_module_step ompi_world (fun _ => super_fails) false
                       (ompi_self gcc_toolchain)))) = "4.0.1" /\
  installdir (snd (make_module_step ompi_world (fun _ => super_fails) false
                     (ompi_self gcc_toolchain))) = "/opt/ompi".
Proof.
  apply (proj1 (failed_super_leaves_substitution ompi_world
                  (fun _ => super_fails) super_fails false
                  (ompi_self gcc_toolchain) "GCC" []
                  (EasyBuildError "Failed to write module file")
                  ltac:(discriminate) eq_refl eq_refl eq_refl)).
  reflexivity.
Defined.
